(** * AI-Storage-Orchestrator: the migration controller

    A shallow embedding of [pkg/controller/migration.go] and
    [pkg/types/migration.go].  The Kubernetes client, the clock and the
    UUID generator are external: they are taken as an interface [Env] over
    an abstract world.  The controller's own code is transcribed statement
    by statement into a small state monad.

    Representation choices:
    - [int], [int64], [time.Duration]: [Z], with the wrap-around of the
      64-bit machine written out ([Int64.wrap]);
    - [float64]: the binary64 primitive floats of the kernel, so that
      arithmetic rounds as the Go program's does;
    - [time.Time]: [Z], a reading of the clock in nanoseconds;
    - [map[string]*MigrationJob]: a [gmap] from identifiers to addresses,
      with the jobs themselves in a heap, since the map stores pointers;
    - [log.Printf] has no effect on the controller's state and is left out. *)

From Stdlib Require Import ZArith List String Bool Lia.
From Stdlib Require Import Floats.
From Stdlib Require Import DecimalString.
From stdpp Require Import base option gmap strings.
Import ListNotations.

Local Open Scope Z_scope.

(** ** Machine integers *)

Module Int64.

Definition min_int : Z := - 2 ^ 63.
Definition max_int : Z := 2 ^ 63 - 1.

(** Two's complement wrap-around of a mathematical integer. *)
Definition wrap (z : Z) : Z := (z + 2 ^ 63) mod 2 ^ 64 - 2 ^ 63.

Definition in_range (z : Z) : Prop := min_int <= z <= max_int.

Definition add (a b : Z) : Z := wrap (a + b).
Definition sub (a b : Z) : Z := wrap (a - b).
Definition mul (a b : Z) : Z := wrap (a * b).
(** Go's [/] truncates toward zero; the divisor is never zero where the
    controller divides. *)
Definition div (a b : Z) : Z := wrap (Z.quot a b).
(** [x++] *)
Definition incr (a : Z) : Z := add a 1.

End Int64.

(** ** Floating point *)

Module Float64.

(** [float64(x)] for [x : int64]: round to nearest, ties to even. *)
Definition of_int64 (z : Z) : float :=
  if z =? Int64.min_int then PrimFloat.opp 0x1p63%float
  else if z <? 0 then PrimFloat.opp (PrimFloat.of_uint63 (Uint63.of_Z (- z)))
  else PrimFloat.of_uint63 (Uint63.of_Z z).

(** [int64(f)] for [f : float64]: the fraction is discarded.  Outside
    the range of [int64] Go leaves the result to the implementation; the
    value here is the one amd64 produces. *)
Definition to_int64 (f : float) : Z :=
  match Prim2SF f with
  | S754_zero _ => 0
  | S754_finite s m e =>
      let mag := if 0 <=? e then Z.shiftl (Z.pos m) e
                 else Z.shiftr (Z.pos m) (- e) in
      let v := if s then - mag else mag in
      if (Int64.min_int <=? v) && (v <=? Int64.max_int) then v
      else Int64.min_int
  | S754_infinity _ | S754_nan => Int64.min_int
  end.

(** The untyped constants of the source, as the binary64 values the
    compiler rounds them to. *)
Definition c_0_5 : float := 0.5%float.
Definition c_0_6 : float := 0x1.3333333333333p-1%float.
Definition c_100 : float := 100%float.

End Float64.

(** ** Time *)

Definition time_Time := Z.
Definition time_Duration := Z.

Definition time_Second : time_Duration := 1000000000.
Definition time_Minute : time_Duration := 60 * time_Second.

Definition maxDuration : time_Duration := Int64.max_int.
Definition minDuration : time_Duration := Int64.min_int.

(** [t.Sub(u)]: the difference, saturated at the ends of [Duration]. *)
Definition time_Sub (t u : time_Time) : time_Duration :=
  let d := t - u in
  if maxDuration <? d then maxDuration
  else if d <? minDuration then minDuration
  else d.

(** [t.Add(d)] *)
Definition time_Add (t : time_Time) (d : time_Duration) : time_Time := t + d.

(** [t.Unix()]: seconds since the epoch. *)
Definition time_Unix (t : time_Time) : Z := t / time_Second.

(** ** pkg/types *)

Record MigrationRequest := {
  PodName : string;
  PodNamespace : string;
  SourceNode : string;
  TargetNode : string;
  PreservePV : bool;
  ForceRestart : bool;
  Timeout : Z
}.

Inductive MigrationStatus :=
| MigrationStatusPending
| MigrationStatusRunning
| MigrationStatusCompleted
| MigrationStatusFailed
| MigrationStatusCancelled.

Record ResourceUsage := {
  CPUUsage : float;
  MemoryUsage : Z;
  Timestamp : time_Time
}.

Record ContainerState := {
  Name : string;
  State : string;
  RestartCount : Z;
  ShouldMigrate : bool
}.

Record MigrationDetails := {
  StartTime : time_Time;
  EndTime : option time_Time;
  Duration : option time_Duration;
  OriginalResources : option ResourceUsage;
  OptimizedResources : option ResourceUsage;
  ContainerStates : list ContainerState;
  CheckpointPath : string;
  PVClaimName : string;
  NewPodName : string
}.

Record MigrationMetrics := {
  TotalMigrations : Z;
  SuccessfulMigrations : Z;
  FailedMigrations : Z;
  AverageDuration : time_Duration;
  CPUSavings : float;
  MemorySavings : float
}.

(** The zero value [&types.MigrationMetrics{}]. *)
Definition zeroMetrics : MigrationMetrics :=
  {| TotalMigrations := 0; SuccessfulMigrations := 0; FailedMigrations := 0;
     AverageDuration := 0; CPUSavings := 0%float; MemorySavings := 0%float |}.

(** ** pkg/controller: data *)

(** A [context.Context] made by [context.WithTimeout]: its deadline.  The
    cancel function stored next to it is called by the deferred call of
    [executeMigration] only, when the run is over and the context is no
    longer used; whether a context has been cancelled is not recorded. *)
Record context_Context := { deadline : time_Time }.

(** [MigrationJob].  [JobStartTime] is the field [StartTime] of the job,
    as opposed to [StartTime] of its [Details]. *)
Record MigrationJob := {
  ID : string;
  Request : MigrationRequest;
  Status : MigrationStatus;
  Details : MigrationDetails;
  JobStartTime : time_Time;
  ctx : context_Context
}.

(** Addresses of job objects. *)
Definition loc := nat.

(** [MigrationResponse].  [Details] is a pointer to the job's own details,
    so the response holds the address of that job. *)
Record MigrationResponse := {
  MigrationID : string;
  RespStatus : MigrationStatus;
  Message : string;
  RespDetails : loc
}.

Record MigrationController := {
  migrations : gmap string loc;
  heap : list MigrationJob;
  metrics : MigrationMetrics;
  checkpointSize : string
}.

(** ** Results of fallible calls *)

(** Go's [error]: [None] is [nil]. *)
Definition error := option string.

Inductive result (A : Type) :=
| Ok (a : A)
| Err (e : string).
Arguments Ok {A} a.
Arguments Err {A} e.

(** [fmt.Errorf("<prefix>: %w", err)] *)
Definition wrapErr (pre : string) (e : string) : string :=
  String.append pre (String.append ": " e).

(** ** The collaborators *)

(** What the controller reads of a [corev1.Pod]. *)
Record Pod := {
  pod_Name : string;
  pod_Namespace : string
}.

(** The Kubernetes client ([pkg/k8s], not part of the controller), the
    clock and the UUID generator, over a world [W].  A metrics call that
    succeeds returns a sample. *)
Record Env (W : Type) := {
  Now : W -> time_Time * W;
  Sleep : time_Duration -> W -> W;
  NewUUID : W -> string * W;
  GetPod : context_Context -> string -> string -> W -> result Pod * W;
  GetPodContainerStates : context_Context -> Pod -> W -> result (list ContainerState) * W;
  GetPodMetrics : context_Context -> string -> string -> W -> result ResourceUsage * W;
  CreatePersistentVolumeClaim :
    context_Context -> string -> string -> string -> W -> error * W;
  CreateOptimizedPod :
    context_Context -> Pod -> string -> list ContainerState -> string -> W -> result Pod * W;
  WaitForPodReady : context_Context -> string -> string -> time_Duration -> W -> error * W;
  DeletePod : context_Context -> string -> string -> W -> error * W
}.
Arguments Now {W}.
Arguments Sleep {W}.
Arguments NewUUID {W}.
Arguments GetPod {W}.
Arguments GetPodContainerStates {W}.
Arguments GetPodMetrics {W}.
Arguments CreatePersistentVolumeClaim {W}.
Arguments CreateOptimizedPod {W}.
Arguments WaitForPodReady {W}.
Arguments DeletePod {W}.

(** ** Record updates *)

Definition set_Status (s : MigrationStatus) (j : MigrationJob) : MigrationJob :=
  {| ID := ID j; Request := Request j; Status := s; Details := Details j;
     JobStartTime := JobStartTime j; ctx := ctx j |}.

Definition set_Details (d : MigrationDetails) (j : MigrationJob) : MigrationJob :=
  {| ID := ID j; Request := Request j; Status := Status j; Details := d;
     JobStartTime := JobStartTime j; ctx := ctx j |}.

Definition set_EndTime (t : option time_Time) (d : MigrationDetails) :=
  {| StartTime := StartTime d; EndTime := t; Duration := Duration d;
     OriginalResources := OriginalResources d;
     OptimizedResources := OptimizedResources d;
     ContainerStates := ContainerStates d; CheckpointPath := CheckpointPath d;
     PVClaimName := PVClaimName d; NewPodName := NewPodName d |}.

Definition set_Duration (x : option time_Duration) (d : MigrationDetails) :=
  {| StartTime := StartTime d; EndTime := EndTime d; Duration := x;
     OriginalResources := OriginalResources d;
     OptimizedResources := OptimizedResources d;
     ContainerStates := ContainerStates d; CheckpointPath := CheckpointPath d;
     PVClaimName := PVClaimName d; NewPodName := NewPodName d |}.

Definition set_OriginalResources (r : option ResourceUsage) (d : MigrationDetails) :=
  {| StartTime := StartTime d; EndTime := EndTime d; Duration := Duration d;
     OriginalResources := r;
     OptimizedResources := OptimizedResources d;
     ContainerStates := ContainerStates d; CheckpointPath := CheckpointPath d;
     PVClaimName := PVClaimName d; NewPodName := NewPodName d |}.

Definition set_OptimizedResources (r : option ResourceUsage) (d : MigrationDetails) :=
  {| StartTime := StartTime d; EndTime := EndTime d; Duration := Duration d;
     OriginalResources := OriginalResources d;
     OptimizedResources := r;
     ContainerStates := ContainerStates d; CheckpointPath := CheckpointPath d;
     PVClaimName := PVClaimName d; NewPodName := NewPodName d |}.

Definition set_ContainerStates (l : list ContainerState) (d : MigrationDetails) :=
  {| StartTime := StartTime d; EndTime := EndTime d; Duration := Duration d;
     OriginalResources := OriginalResources d;
     OptimizedResources := OptimizedResources d;
     ContainerStates := l; CheckpointPath := CheckpointPath d;
     PVClaimName := PVClaimName d; NewPodName := NewPodName d |}.

Definition set_CheckpointPath (s : string) (d : MigrationDetails) :=
  {| StartTime := StartTime d; EndTime := EndTime d; Duration := Duration d;
     OriginalResources := OriginalResources d;
     OptimizedResources := OptimizedResources d;
     ContainerStates := ContainerStates d; CheckpointPath := s;
     PVClaimName := PVClaimName d; NewPodName := NewPodName d |}.

Definition set_PVClaimName (s : string) (d : MigrationDetails) :=
  {| StartTime := StartTime d; EndTime := EndTime d; Duration := Duration d;
     OriginalResources := OriginalResources d;
     OptimizedResources := OptimizedResources d;
     ContainerStates := ContainerStates d; CheckpointPath := CheckpointPath d;
     PVClaimName := s; NewPodName := NewPodName d |}.

Definition set_NewPodName (s : string) (d : MigrationDetails) :=
  {| StartTime := StartTime d; EndTime := EndTime d; Duration := Duration d;
     OriginalResources := OriginalResources d;
     OptimizedResources := OptimizedResources d;
     ContainerStates := ContainerStates d; CheckpointPath := CheckpointPath d;
     PVClaimName := PVClaimName d; NewPodName := s |}.

(** ** What one run of the pipeline does, as a trace

    The trace is an observation added to the model: every write to the
    job's [Status], [Details.EndTime] and [Details.Duration], every entry
    into a step of the pipeline and the error that step hands back to
    [executeMigration] are recorded in order. *)

Inductive Step :=
| StepCapture        (* 1: captureContainerStates *)
| StepCheckpoint     (* 2: createCheckpoint *)
| StepCreatePod      (* 3: createOptimizedPod *)
| StepDeleteOriginal (* 4: deleteOriginalPod *)
| StepPostMetrics.   (* 5: collectPostMigrationMetrics *)

Inductive Event :=
| EvStatus (s : MigrationStatus)
| EvEndTime (t : time_Time)
| EvDuration (d : time_Duration)
| EvStep (s : Step)
| EvReturn (s : Step) (e : error).

(** ** The state the pipeline of one job runs on

    The job object the goroutine owns, the two fields of the controller it
    reads or writes, the world of the collaborators, and the trace. *)

Record St (W : Type) := mkSt {
  world : W;
  job : MigrationJob;
  mc_metrics : MigrationMetrics;
  mc_checkpointSize : string;
  trace : list Event
}.
Arguments mkSt {W}.
Arguments world {W}.
Arguments job {W}.
Arguments mc_metrics {W}.
Arguments mc_checkpointSize {W}.
Arguments trace {W}.

Definition M (W A : Type) : Type := St W -> A * St W.

Definition ret {W A} (a : A) : M W A := fun st => (a, st).

Definition bind {W A B} (m : M W A) (k : A -> M W B) : M W B :=
  fun st => let (a, st') := m st in k a st'.

Notation "x <-- m ;;; k" := (bind m (fun x => k))
  (at level 100, m at next level, right associativity).
Notation "m ;;; k" := (bind m (fun _ => k))
  (at level 100, right associativity).

Definition liftW {W A} (f : W -> A * W) : M W A :=
  fun st => let (a, w) := f (world st) in
            (a, mkSt w (job st) (mc_metrics st) (mc_checkpointSize st) (trace st)).

Definition getJob {W} : M W MigrationJob := fun st => (job st, st).

Definition modifyJob {W} (f : MigrationJob -> MigrationJob) : M W unit :=
  fun st => (tt, mkSt (world st) (f (job st)) (mc_metrics st)
                      (mc_checkpointSize st) (trace st)).

Definition modifyDetails {W} (f : MigrationDetails -> MigrationDetails) : M W unit :=
  modifyJob (fun j => set_Details (f (Details j)) j).

Definition getMetrics {W} : M W MigrationMetrics := fun st => (mc_metrics st, st).

Definition putMetrics {W} (m : MigrationMetrics) : M W unit :=
  fun st => (tt, mkSt (world st) (job st) m (mc_checkpointSize st) (trace st)).

Definition getCheckpointSize {W} : M W string :=
  fun st => (mc_checkpointSize st, st).

Definition emit {W} (e : Event) : M W unit :=
  fun st => (tt, mkSt (world st) (job st) (mc_metrics st)
                      (mc_checkpointSize st) (trace st ++ [e])).

(** Decimal rendering of an integer, for [%d]. *)
Definition fmt_d (z : Z) : string := NilZero.string_of_int (Z.to_int z).

(** The number of containers marked for migration (only logged). *)
Definition countShouldMigrate (l : list ContainerState) : nat :=
  length (filter ShouldMigrate l).

(** ** pkg/controller: the pipeline of one job *)

Section Controller.

Context {W : Type} (E : Env W).

Definition now : M W time_Time := liftW (Now E).

Definition updateJobStatus (status : MigrationStatus) : M W unit :=
  modifyJob (set_Status status) ;;;
  emit (EvStatus status).

Definition failMigration (message : string) : M W unit :=
  modifyJob (set_Status MigrationStatusFailed) ;;;
  emit (EvStatus MigrationStatusFailed) ;;;
  endTime <-- now ;;;
  modifyDetails (set_EndTime (Some endTime)) ;;;
  emit (EvEndTime endTime) ;;;
  j <-- getJob ;;;
  let duration := time_Sub endTime (JobStartTime j) in
  modifyDetails (set_Duration (Some duration)) ;;;
  emit (EvDuration duration) ;;;
  m <-- getMetrics ;;;
  putMetrics
    {| TotalMigrations := TotalMigrations m;
       SuccessfulMigrations := SuccessfulMigrations m;
       FailedMigrations := Int64.incr (FailedMigrations m);
       AverageDuration := AverageDuration m;
       CPUSavings := CPUSavings m;
       MemorySavings := MemorySavings m |}.

(** The running average, as [completeMigration] updates it: [total] is
    the counter after its increment. *)
Definition updateAverage (avg : time_Duration) (total : Z)
    (duration : time_Duration) : time_Duration :=
  if 0 <? total then
    Int64.div (Int64.add (Int64.mul avg (Int64.sub total 1)) duration) total
  else avg.

Definition cpuSavings (original optimized : ResourceUsage) : float :=
  PrimFloat.mul
    (PrimFloat.div
       (PrimFloat.sub (CPUUsage original) (CPUUsage optimized))
       (CPUUsage original))
    Float64.c_100.

Definition memorySavings (original optimized : ResourceUsage) : float :=
  PrimFloat.mul
    (PrimFloat.div
       (Float64.of_int64
          (Int64.sub (MemoryUsage original) (MemoryUsage optimized)))
       (Float64.of_int64 (MemoryUsage original)))
    Float64.c_100.

Definition completeMigration : M W unit :=
  modifyJob (set_Status MigrationStatusCompleted) ;;;
  emit (EvStatus MigrationStatusCompleted) ;;;
  endTime <-- now ;;;
  modifyDetails (set_EndTime (Some endTime)) ;;;
  emit (EvEndTime endTime) ;;;
  j <-- getJob ;;;
  let duration := time_Sub endTime (JobStartTime j) in
  modifyDetails (set_Duration (Some duration)) ;;;
  emit (EvDuration duration) ;;;
  m <-- getMetrics ;;;
  let total := Int64.incr (TotalMigrations m) in
  let successful := Int64.incr (SuccessfulMigrations m) in
  let average := updateAverage (AverageDuration m) total duration in
  match OriginalResources (Details j), OptimizedResources (Details j) with
  | Some original, Some optimized =>
      putMetrics
        {| TotalMigrations := total;
           SuccessfulMigrations := successful;
           FailedMigrations := FailedMigrations m;
           AverageDuration := average;
           CPUSavings := cpuSavings original optimized;
           MemorySavings := memorySavings original optimized |}
  | _, _ =>
      putMetrics
        {| TotalMigrations := total;
           SuccessfulMigrations := successful;
           FailedMigrations := FailedMigrations m;
           AverageDuration := average;
           CPUSavings := CPUSavings m;
           MemorySavings := MemorySavings m |}
  end.

Definition captureContainerStates : M W error :=
  j <-- getJob ;;;
  let ctx := ctx j in
  r <-- liftW (GetPod E ctx (PodNamespace (Request j)) (PodName (Request j))) ;;;
  match r with
  | Err err => ret (Some (wrapErr "failed to get pod" err))
  | Ok pod =>
      r <-- liftW (GetPodContainerStates E ctx pod) ;;;
      match r with
      | Err err => ret (Some (wrapErr "failed to analyze container states" err))
      | Ok containerStates =>
          modifyDetails (set_ContainerStates containerStates) ;;;
          r <-- liftW (GetPodMetrics E ctx (PodNamespace (Request j))
                                     (PodName (Request j))) ;;;
          metrics <-- match r with
                      | Err _ =>
                          t <-- now ;;;
                          ret {| CPUUsage := 0%float; MemoryUsage := 0;
                                 Timestamp := t |}
                      | Ok metrics => ret metrics
                      end ;;;
          modifyDetails (set_OriginalResources (Some metrics)) ;;;
          ret None
      end
  end.

Definition createCheckpoint : M W (result string) :=
  j <-- getJob ;;;
  let ctx := ctx j in
  t <-- now ;;;
  let checkpointName :=
    String.append "checkpoint-"
      (String.append (PodName (Request j))
         (String.append "-" (fmt_d (time_Unix t)))) in
  size <-- getCheckpointSize ;;;
  e <-- liftW (CreatePersistentVolumeClaim E ctx (PodNamespace (Request j))
                                           checkpointName size) ;;;
  match e with
  | Some err => ret (Err (wrapErr "failed to create checkpoint PVC" err))
  | None => ret (Ok checkpointName)
  end.

Definition createOptimizedPod (checkpointPVC : string) : M W error :=
  j <-- getJob ;;;
  let ctx := ctx j in
  r <-- liftW (GetPod E ctx (PodNamespace (Request j)) (PodName (Request j))) ;;;
  match r with
  | Err err => ret (Some (wrapErr "failed to get original pod" err))
  | Ok originalPod =>
      r <-- liftW (CreateOptimizedPod E ctx originalPod (TargetNode (Request j))
                     (ContainerStates (Details j)) checkpointPVC) ;;;
      match r with
      | Err err => ret (Some (wrapErr "failed to create optimized pod" err))
      | Ok newPod =>
          e <-- liftW (WaitForPodReady E ctx (pod_Namespace newPod)
                         (pod_Name newPod) (5 * time_Minute)) ;;;
          match e with
          | Some err => ret (Some (wrapErr "new pod failed to become ready" err))
          | None =>
              modifyDetails (set_NewPodName (pod_Name newPod)) ;;;
              ret None
          end
      end
  end.

Definition deleteOriginalPod : M W error :=
  j <-- getJob ;;;
  let ctx := ctx j in
  e <-- liftW (DeletePod E ctx (PodNamespace (Request j)) (PodName (Request j))) ;;;
  match e with
  | Some err => ret (Some (wrapErr "failed to delete original pod" err))
  | None => ret None
  end.

(** The simulated sample both fall-back branches of
    [collectPostMigrationMetrics] build. *)
Definition simulatedResources (original : ResourceUsage) (t : time_Time)
    : ResourceUsage :=
  {| CPUUsage := PrimFloat.mul (CPUUsage original) Float64.c_0_5;
     MemoryUsage :=
       Float64.to_int64
         (PrimFloat.mul (Float64.of_int64 (MemoryUsage original)) Float64.c_0_6);
     Timestamp := t |}.

Definition simulate : M W unit :=
  j <-- getJob ;;;
  match OriginalResources (Details j) with
  | Some original =>
      t <-- now ;;;
      modifyDetails (set_OptimizedResources (Some (simulatedResources original t)))
  | None => ret tt
  end.

Definition collectPostMigrationMetrics : M W error :=
  liftW (fun w => (tt, Sleep E (30 * time_Second) w)) ;;;
  j <-- getJob ;;;
  if negb (String.eqb (NewPodName (Details j)) "") then
    r <-- liftW (GetPodMetrics E (ctx j) (PodNamespace (Request j))
                               (NewPodName (Details j))) ;;;
    match r with
    | Err _ =>
        simulate ;;;
        ret None
    | Ok metrics =>
        modifyDetails (set_OptimizedResources (Some metrics)) ;;;
        ret None
    end
  else
    simulate ;;;
    ret None.

Definition executeMigration : M W unit :=
  updateJobStatus MigrationStatusRunning ;;;
  (* Step 1 *)
  emit (EvStep StepCapture) ;;;
  e <-- captureContainerStates ;;;
  emit (EvReturn StepCapture e) ;;;
  match e with
  | Some err =>
      failMigration (String.append "Failed to capture container states: " err)
  | None =>
      (* Step 2 *)
      j <-- getJob ;;;
      r <-- (if PreservePV (Request j) then
               emit (EvStep StepCheckpoint) ;;;
               r <-- createCheckpoint ;;;
               match r with
               | Err err =>
                   emit (EvReturn StepCheckpoint (Some err)) ;;;
                   ret (Err err)
               | Ok checkpointPVC =>
                   emit (EvReturn StepCheckpoint None) ;;;
                   modifyDetails (set_CheckpointPath checkpointPVC) ;;;
                   modifyDetails (set_PVClaimName checkpointPVC) ;;;
                   ret (Ok checkpointPVC)
               end
             else ret (Ok "")) ;;;
      match r with
      | Err err =>
          failMigration (String.append "Failed to create checkpoint: " err)
      | Ok checkpointPVC =>
          (* Step 3 *)
          emit (EvStep StepCreatePod) ;;;
          e <-- createOptimizedPod checkpointPVC ;;;
          emit (EvReturn StepCreatePod e) ;;;
          match e with
          | Some err =>
              failMigration (String.append "Failed to create optimized pod: " err)
          | None =>
              (* Step 4: an error is logged, nothing else *)
              emit (EvStep StepDeleteOriginal) ;;;
              e <-- deleteOriginalPod ;;;
              emit (EvReturn StepDeleteOriginal e) ;;;
              (* Step 5: an error is logged, nothing else *)
              emit (EvStep StepPostMetrics) ;;;
              e <-- collectPostMigrationMetrics ;;;
              emit (EvReturn StepPostMetrics e) ;;;
              completeMigration
          end
      end
  end.

End Controller.

(** ** pkg/controller: the registry *)

Section Registry.

Context {W : Type} (E : Env W).

Definition NewMigrationController : MigrationController :=
  {| migrations := ∅; heap := []; metrics := zeroMetrics;
     checkpointSize := "1Gi" |}.

(** [context.WithTimeout(context.Background(), d)] *)
Definition context_WithTimeout (d : time_Duration) (w : W) : context_Context * W :=
  let (t, w) := Now E w in
  ({| deadline := time_Add t d |}, w).

(** [StartMigration].  Next to the response and the error it returns,
    the result names the job object handed to the goroutine
    [go mc.executeMigration(job)].  The goroutine is started once the job
    is in the map and before [StartMigration] returns; all that
    [StartMigration] does after that is build its response, from constants
    and the address of the job's details.  The goroutine itself is run by
    [runJob] below, or stage by stage by [progressJob]. *)
Definition StartMigration (req : MigrationRequest)
    (mc : MigrationController) (w : W)
    : (MigrationResponse * error) * loc * MigrationController * W :=
  let (u, w) := NewUUID E w in
  let migrationID := String.append "migration-" (String.substring 0 8 u) in
  let (ctx, w) :=
    context_WithTimeout (Int64.mul (Timeout req) time_Second) w in
  let (ctx, w) :=
    if Timeout req =? 0 then context_WithTimeout (10 * time_Minute) w
    else (ctx, w) in
  let (t1, w) := Now E w in
  let (t2, w) := Now E w in
  let job :=
    {| ID := migrationID;
       Request := req;
       Status := MigrationStatusPending;
       JobStartTime := t1;
       Details :=
         {| StartTime := t2; EndTime := None; Duration := None;
            OriginalResources := None; OptimizedResources := None;
            ContainerStates := []; CheckpointPath := ""; PVClaimName := "";
            NewPodName := "" |};
       ctx := ctx |} in
  let l := length (heap mc) in
  let mc :=
    {| migrations := <[migrationID := l]> (migrations mc);
       heap := heap mc ++ [job];
       metrics := metrics mc;
       checkpointSize := checkpointSize mc |} in
  (({| MigrationID := migrationID;
       RespStatus := MigrationStatusPending;
       Message := "Migration started";
       RespDetails := l |}, None), l, mc, w).

Definition getStatusMessage (status : MigrationStatus) : string :=
  match status with
  | MigrationStatusPending => "Migration is pending"
  | MigrationStatusRunning => "Migration is in progress"
  | MigrationStatusCompleted => "Migration completed successfully"
  | MigrationStatusFailed => "Migration failed"
  | MigrationStatusCancelled => "Migration was cancelled"
  end.

(** [GetMigrationStatus].  Every address in the map is allocated, so the
    inner [None] does not arise. *)
Definition GetMigrationStatus (migrationID : string)
    (mc : MigrationController) : result MigrationResponse :=
  match migrations mc !! migrationID with
  | None =>
      Err (String.append "migration "
             (String.append migrationID " not found"))
  | Some l =>
      match heap mc !! l with
      | Some job =>
          Ok {| MigrationID := ID job;
                RespStatus := Status job;
                Message := getStatusMessage (Status job);
                RespDetails := l |}
      | None => Err "nil job"
      end
  end.

Definition GetMetrics (mc : MigrationController) : MigrationMetrics :=
  metrics mc.

(** The goroutine of one job, run to its end without interleaving: the
    job object at [l] and the controller's metrics are what it writes. *)
Definition runJob (l : loc) (mc : MigrationController) (w : W)
    : MigrationController * W * list Event :=
  match heap mc !! l with
  | Some j =>
      let st := mkSt w j (metrics mc) (checkpointSize mc) [] in
      let st' := snd (executeMigration E st) in
      ({| migrations := migrations mc;
          heap := <[l := job st']> (heap mc);
          metrics := mc_metrics st';
          checkpointSize := checkpointSize mc |},
       world st', trace st')
  | None => (mc, w, [])
  end.

End Registry.

(** ** What the environment keeps

    [EnvKeeps E R]: the relation [R] between worlds is a preorder, and
    every operation of the environment takes a world to one related to
    it. *)

Record EnvKeeps {W : Type} (E : Env W) (R : W -> W -> Prop) : Prop := {
  env_refl : forall w, R w w;
  env_trans : forall a b c, R a b -> R b c -> R a c;
  env_Now : forall w, R w (snd (Now E w));
  env_Sleep : forall d w, R w (Sleep E d w);
  env_NewUUID : forall w, R w (snd (NewUUID E w));
  env_GetPod : forall c ns n w, R w (snd (GetPod E c ns n w));
  env_GetPodContainerStates :
    forall c p w, R w (snd (GetPodContainerStates E c p w));
  env_GetPodMetrics :
    forall c ns n w, R w (snd (GetPodMetrics E c ns n w));
  env_CreatePersistentVolumeClaim :
    forall c ns n sz w,
      R w (snd (CreatePersistentVolumeClaim E c ns n sz w));
  env_CreateOptimizedPod :
    forall c p t cs pvc w,
      R w (snd (CreateOptimizedPod E c p t cs pvc w));
  env_WaitForPodReady :
    forall c ns n d w, R w (snd (WaitForPodReady E c ns n d w));
  env_DeletePod : forall c ns n w, R w (snd (DeletePod E c ns n w))
}.

(** ** A clock that does not run backwards

    [clk] reads the clock of a world; no operation of the environment
    moves it back, and [Now] reports a reading between the clock before
    and after the call. *)

Definition clock_order {W : Type} (clk : W -> time_Time) (w w' : W) : Prop :=
  clk w <= clk w'.

Definition MonotoneClock {W : Type} (E : Env W) (clk : W -> time_Time) : Prop :=
  EnvKeeps E (clock_order clk) /\
  forall w, clk w <= fst (Now E w) <= clk (snd (Now E w)).

(** ** A simulated cluster

    A concrete environment to run the controller on: a clock that every
    client call advances by a fixed latency, a client that honours the
    deadline of the context it is given, a set of calls the cluster
    rejects, and a metrics server that knows the pods in [usage]. *)

Module Sim.

Inductive Call :=
| CGetPod
| CGetPodContainerStates
| CGetPodMetrics
| CCreatePersistentVolumeClaim
| CCreateOptimizedPod
| CWaitForPodReady
| CDeletePod.

Record World := mkWorld {
  clock : time_Time;
  uuids : list string;
  rejected : Call -> bool;
  latency : N;
  usage : gmap string ResourceUsage;
  containers : list ContainerState
}.

Definition advance (d : Z) (w : World) : World :=
  mkWorld (clock w + Z.max 0 d) (uuids w) (rejected w) (latency w)
          (usage w) (containers w).

(** The error of a call that ends in world [w]. *)
Definition outcome (c : Call) (ctx : context_Context) (w : World) : error :=
  if deadline ctx <=? clock w then Some "context deadline exceeded"
  else if rejected w c then Some "rejected by the cluster"
  else None.

Definition call {A} (c : Call) (ctx : context_Context) (ok : World -> result A)
    (w : World) : result A * World :=
  let w' := advance (Z.of_N (latency w)) w in
  match outcome c ctx w' with
  | Some err => (Err err, w')
  | None => (ok w', w')
  end.

Definition call_ (c : Call) (ctx : context_Context) (w : World) : error * World :=
  let w' := advance (Z.of_N (latency w)) w in
  (outcome c ctx w', w').

Definition env : Env World :=
  {| Now := fun w => (clock w, w);
     Sleep := fun d w => advance d w;
     NewUUID := fun w =>
       match uuids w with
       | u :: us =>
           (u, mkWorld (clock w) us (rejected w) (latency w) (usage w)
                       (containers w))
       | [] => ("00000000-0000-0000-0000-000000000000", w)
       end;
     GetPod := fun ctx ns n =>
       call CGetPod ctx
            (fun _ => Ok {| pod_Name := n; pod_Namespace := ns |});
     GetPodContainerStates := fun ctx _ =>
       call CGetPodContainerStates ctx (fun w => Ok (containers w));
     GetPodMetrics := fun ctx _ n =>
       call CGetPodMetrics ctx
            (fun w => match usage w !! n with
                      | Some r => Ok r
                      | None => Err "pod metrics not found"
                      end);
     CreatePersistentVolumeClaim := fun ctx _ _ _ =>
       call_ CCreatePersistentVolumeClaim ctx;
     CreateOptimizedPod := fun ctx p _ _ _ =>
       call CCreateOptimizedPod ctx
            (fun w => Ok {| pod_Name :=
                              String.append (pod_Name p)
                                (String.append "-migrated-"
                                   (fmt_d (time_Unix (clock w))));
                            pod_Namespace := pod_Namespace p |});
     WaitForPodReady := fun ctx _ _ _ => call_ CWaitForPodReady ctx;
     DeletePod := fun ctx _ _ => call_ CDeletePod ctx |}.

(** A request for pod [default/p1], from node [n1] to node [n2]. *)
Definition request (preserve : bool) (timeout : Z) : MigrationRequest :=
  {| PodName := "p1"; PodNamespace := "default"; SourceNode := "n1";
     TargetNode := "n2"; PreservePV := preserve; ForceRestart := false;
     Timeout := timeout |}.

Definition sample (cpu : float) (mem : Z) : ResourceUsage :=
  {| CPUUsage := cpu; MemoryUsage := mem; Timestamp := 0 |}.

(** A healthy cluster at time 0: no call is rejected, every call takes
    one millisecond, pod [p1] uses 2 cores and 1000 bytes, and the
    metrics server does not know the migrated pod. *)
Definition healthy : World :=
  mkWorld 0 ["aaaaaaaa-0000-4000-8000-000000000000";
             "aaaaaaaa-1111-4000-8000-000000000000"]
          (fun _ => false) 1000000
          {[ "p1" := sample 2%float 1000 ]}
          [ {| Name := "main"; State := "running"; RestartCount := 0;
               ShouldMigrate := true |};
            {| Name := "init"; State := "completed"; RestartCount := 0;
               ShouldMigrate := false |} ].

(** The same cluster with the calls in [bad] rejected. *)
Definition rejecting (bad : Call -> bool) : World :=
  mkWorld (clock healthy) (uuids healthy) bad (latency healthy)
          (usage healthy) (containers healthy).

(** The same cluster whose metrics server knows no pod at all. *)
Definition without_metrics : World :=
  mkWorld (clock healthy) (uuids healthy) (rejected healthy)
          (latency healthy) ∅ (containers healthy).

(** Submit [req] to a fresh controller and run its job to the end. *)
Definition submit_and_run (req : MigrationRequest) (w : World)
    : MigrationController * World * list Event :=
  let '(_, l, mc, w) := StartMigration env req NewMigrationController w in
  runJob env l mc w.


(** The job [StartMigration] creates for [req] in [healthy]. *)
Definition pending (req : MigrationRequest) : MigrationJob :=
  {| ID := "migration-aaaaaaaa";
     Request := req;
     Status := MigrationStatusPending;
     Details :=
       {| StartTime := 0; EndTime := None; Duration := None;
          OriginalResources := None; OptimizedResources := None;
          ContainerStates := []; CheckpointPath := ""; PVClaimName := "";
          NewPodName := "" |};
     JobStartTime := 0;
     ctx := {| deadline := if Timeout req =? 0 then 10 * time_Minute
                           else Timeout req * time_Second |} |}.

(** The job of [request false 0] as steps 1 to 3 leave it in [healthy],
    in world [w], before step 5. *)
Definition migrated (w : World) : St World :=
  mkSt w
       {| ID := "migration-aaaaaaaa";
          Request := request false 0;
          Status := MigrationStatusRunning;
          Details :=
            {| StartTime := 0; EndTime := None; Duration := None;
               OriginalResources := Some (sample 2%float 1000);
               OptimizedResources := None;
               ContainerStates := containers w;
               CheckpointPath := ""; PVClaimName := "";
               NewPodName := "p1-migrated-0" |};
          JobStartTime := 0;
          ctx := {| deadline := 10 * time_Minute |} |}
       zeroMetrics "1Gi" [].

(** The healthy cluster whose metrics server also knows the migrated
    pod, and reports 1 core and 600 bytes for it. *)
Definition measuring : World :=
  mkWorld (clock healthy) (uuids healthy) (rejected healthy)
          (latency healthy)
          {[ "p1" := sample 2%float 1000;
             "p1-migrated-0" :=
               {| CPUUsage := 1%float; MemoryUsage := 600;
                  Timestamp := 30001000000 |} ]}
          (containers healthy).

End Sim.

(** ** Reading a trace *)

Definition statuses (tr : list Event) : list MigrationStatus :=
  omap (fun e => match e with EvStatus s => Some s | _ => None end) tr.

Definition endTimes (tr : list Event) : list time_Time :=
  omap (fun e => match e with EvEndTime t => Some t | _ => None end) tr.

Definition durations (tr : list Event) : list time_Duration :=
  omap (fun e => match e with EvDuration d => Some d | _ => None end) tr.

Definition steps (tr : list Event) : list Step :=
  omap (fun e => match e with EvStep s => Some s | _ => None end) tr.

(** The fail-fast steps of the pipeline are the first three. *)
Definition fail_fast (s : Step) : bool :=
  match s with
  | StepCapture | StepCheckpoint | StepCreatePod => true
  | StepDeleteOriginal | StepPostMetrics => false
  end.

(** The errors fail-fast steps handed back, in order. *)
Definition failFastErrors (tr : list Event) : list string :=
  omap (fun e => match e with
                 | EvReturn s (Some err) => if fail_fast s then Some err else None
                 | _ => None
                 end) tr.

Definition is_terminal (s : MigrationStatus) : bool :=
  match s with
  | MigrationStatusCompleted | MigrationStatusFailed => true
  | _ => false
  end.

(** The order pending < running < {completed, failed}. *)
Definition status_lt (a b : MigrationStatus) : bool :=
  match a, b with
  | MigrationStatusPending, MigrationStatusRunning
  | MigrationStatusPending, MigrationStatusCompleted
  | MigrationStatusPending, MigrationStatusFailed
  | MigrationStatusRunning, MigrationStatusCompleted
  | MigrationStatusRunning, MigrationStatusFailed => true
  | _, _ => false
  end.

(** Every status of the sequence is below the next one. *)
Fixpoint ascending (l : list MigrationStatus) : bool :=
  match l with
  | a :: ((b :: _) as l') => status_lt a b && ascending l'
  | _ => true
  end.

(** ** The shapes of a run

    [pipeline_log preserve log s]: [log] is what the steps of one run
    leave in the trace between the write of [running] and the terminal
    write of [s], for a request with [PreservePV = preserve]. *)

Definition captured : list Event :=
  [EvStep StepCapture; EvReturn StepCapture None].

Definition checkpointed (preserve : bool) : list Event :=
  if preserve then [EvStep StepCheckpoint; EvReturn StepCheckpoint None]
  else [].

Inductive pipeline_log (preserve : bool)
  : list Event -> MigrationStatus -> Prop :=
| log_capture_failed err :
    pipeline_log preserve
      [EvStep StepCapture; EvReturn StepCapture (Some err)]
      MigrationStatusFailed
| log_checkpoint_failed err :
    preserve = true ->
    pipeline_log preserve
      (captured ++ [EvStep StepCheckpoint; EvReturn StepCheckpoint (Some err)])
      MigrationStatusFailed
| log_create_failed err :
    pipeline_log preserve
      (captured ++ checkpointed preserve ++
       [EvStep StepCreatePod; EvReturn StepCreatePod (Some err)])
      MigrationStatusFailed
| log_completed e4 e5 :
    pipeline_log preserve
      (captured ++ checkpointed preserve ++
       [EvStep StepCreatePod; EvReturn StepCreatePod None;
        EvStep StepDeleteOriginal; EvReturn StepDeleteOriginal e4;
        EvStep StepPostMetrics; EvReturn StepPostMetrics e5])
      MigrationStatusCompleted.

(** What a step of the pipeline leaves alone: the job's status, end time,
    duration, start times, request, context and identifier, the
    controller's metrics and checkpoint size, and the trace. *)
Definition same_control {W} (st st' : St W) : Prop :=
  StartTime (Details (job st')) = StartTime (Details (job st)) /\
  Status (job st') = Status (job st) /\
  EndTime (Details (job st')) = EndTime (Details (job st)) /\
  Duration (Details (job st')) = Duration (Details (job st)) /\
  JobStartTime (job st') = JobStartTime (job st) /\
  Request (job st') = Request (job st) /\
  ctx (job st') = ctx (job st) /\
  ID (job st') = ID (job st) /\
  mc_metrics st' = mc_metrics st /\
  mc_checkpointSize st' = mc_checkpointSize st /\
  trace st' = trace st.

(** What the terminal transition to [s], of a job that took [d], makes of
    the controller's counters and running average. *)
Definition counted (s : MigrationStatus) (d : time_Duration)
    (m m' : MigrationMetrics) : Prop :=
  match s with
  | MigrationStatusCompleted =>
      TotalMigrations m' = Int64.incr (TotalMigrations m) /\
      SuccessfulMigrations m' = Int64.incr (SuccessfulMigrations m) /\
      FailedMigrations m' = FailedMigrations m /\
      AverageDuration m' =
        updateAverage (AverageDuration m) (Int64.incr (TotalMigrations m)) d
  | _ =>
      TotalMigrations m' = TotalMigrations m /\
      SuccessfulMigrations m' = SuccessfulMigrations m /\
      FailedMigrations m' = Int64.incr (FailedMigrations m) /\
      AverageDuration m' = AverageDuration m /\
      CPUSavings m' = CPUSavings m /\
      MemorySavings m' = MemorySavings m
  end.

(** A step relates the state it starts in and the state it ends in: the
    worlds by [R], and the control state is left alone. *)
Definition step_rel {W} (R : W -> W -> Prop) (st st' : St W) : Prop :=
  R (world st) (world st') /\ same_control st st'.

(** A computation keeps a relation between the state it starts in and
    the state it ends in. *)
Definition keeps {W A} (R : St W -> St W -> Prop) (m : M W A) : Prop :=
  forall st, R st (snd (m st)).

(** The state [st] with the two samples of its job replaced. *)
Definition with_resources {W} (original optimized : option ResourceUsage)
    (st : St W) : St W :=
  mkSt (world st)
       (set_Details
          (set_OptimizedResources optimized
             (set_OriginalResources original (Details (job st))))
          (job st))
       (mc_metrics st) (mc_checkpointSize st) (trace st).

(** A sample taken at time [t]. *)
Definition sampleAt (cpu : float) (mem : Z) (t : time_Time) : ResourceUsage :=
  {| CPUUsage := cpu; MemoryUsage := mem; Timestamp := t |}.

(** One run of the pipeline, from an empty trace. *)
Definition runPipeline {W} (E : Env W) (w : W) (j : MigrationJob)
    (m : MigrationMetrics) (size : string) : St W :=
  snd (executeMigration E (mkSt w j m size [])).

(** No step is entered after a fail-fast step has handed back an error. *)
Fixpoint halts_at_failure (tr : list Event) : bool :=
  match tr with
  | [] => true
  | EvReturn s (Some _) :: post =>
      (if fail_fast s then
         match steps post with [] => true | _ :: _ => false end
       else true) && halts_at_failure post
  | _ :: post => halts_at_failure post
  end.

(** Whether the metrics call of step 5, made in the world the settle
    delay ends in, fails. *)
Definition sampling_failed {W} (E : Env W) (st : St W) : bool :=
  match fst (GetPodMetrics E (ctx (job st)) (PodNamespace (Request (job st)))
               (NewPodName (Details (job st)))
               (Sleep E (30 * time_Second) (world st))) with
  | Err _ => true
  | Ok _ => false
  end.

(** [marker] tells, from the sample step 5 records on the simulated
    cluster, whether it is an estimate. *)
Definition marks_estimates (marker : ResourceUsage -> bool) : Prop :=
  forall (st : St Sim.World) (r : ResourceUsage),
    NewPodName (Details (job st)) <> EmptyString ->
    OriginalResources (Details (job st)) <> None ->
    OptimizedResources
      (Details (job (snd (collectPostMigrationMetrics Sim.env st)))) = Some r ->
    marker r = sampling_failed Sim.env st.

(** The terminal transition of one job: which one, in which world, and
    the job it ends. *)
Inductive Terminal (W : Type) :=
| TFailed (message : string) (w : W) (j : MigrationJob)
| TCompleted (w : W) (j : MigrationJob).
Arguments TFailed {W}.
Arguments TCompleted {W}.

Definition is_completed {W} (t : Terminal W) : bool :=
  match t with TCompleted _ _ => true | TFailed _ _ _ => false end.

(** The controller's metrics after the terminal transitions [ts], in the
    order the lock serialises them, starting from [m]. *)
Fixpoint replay {W} (E : Env W) (ts : list (Terminal W))
    (m : MigrationMetrics) : MigrationMetrics :=
  match ts with
  | [] => m
  | TFailed message w j :: ts' =>
      replay E ts' (mc_metrics (snd (failMigration E message (mkSt w j m "1Gi" []))))
  | TCompleted w j :: ts' =>
      replay E ts' (mc_metrics (snd (completeMigration E (mkSt w j m "1Gi" []))))
  end.


(** The steps of the pipeline, in order, for a request with
    [PreservePV = preserve]. *)
Definition pipeline_steps (preserve : bool) : list Step :=
  StepCapture ::
  (if preserve then [StepCheckpoint] else []) ++
  [StepCreatePod; StepDeleteOriginal; StepPostMetrics].

(** The relation between worlds that holds of any two worlds. *)
Definition any_world {W : Type} (w w' : W) : Prop := True.

(** ** Further notions *)

(** What a run never changes of its job: the identifier, the request, the
    context, and the two start times. *)
Definition same_identity {W} (st st' : St W) : Prop :=
  ID (job st') = ID (job st) /\
  Request (job st') = Request (job st) /\
  ctx (job st') = ctx (job st) /\
  JobStartTime (job st') = JobStartTime (job st) /\
  StartTime (Details (job st')) = StartTime (Details (job st)).

(** Every identifier of the map leads to an allocated job that carries
    that identifier. *)
Definition registry_ok (mc : MigrationController) : Prop :=
  forall id l,
    migrations mc !! id = Some l ->
    exists j, heap mc !! l = Some j /\ ID j = id.

(** The controllers that submissions and runs of jobs produce from a new
    controller. *)
Inductive reachable {W : Type} (E : Env W) : MigrationController -> Prop :=
| reach_new : reachable E NewMigrationController
| reach_start req mc w :
    reachable E mc ->
    reachable E (snd (fst (StartMigration E req mc w)))
| reach_run l mc w :
    reachable E mc ->
    reachable E (fst (fst (runJob E l mc w))).

(** The name [createCheckpoint] gives the claim it creates at time [t]. *)
Definition checkpointName (podName : string) (t : time_Time) : string :=
  String.append "checkpoint-"
    (String.append podName (String.append "-" (fmt_d (time_Unix t)))).

Definition is_failed {W} (t : Terminal W) : bool := negb (is_completed t).

(** ** The stages of a run

    A run takes the controller's lock twice: in [updateJobStatus], when it
    is dispatched, and in its terminal transition.  Steps 1 to 5 run
    between the two without the lock.  [runSteps] is that middle part, the
    steps as [executeMigration] goes through them, handing back the message
    of the fail-fast step that failed, or nothing when the run is to
    complete; [finish] is the terminal transition that follows, and
    [staged] puts the three stages together ([executeMigration_staged]
    shows that it is [executeMigration]). *)

Section Stages.

Context {W : Type} (E : Env W).

Definition runSteps : M W (option string) :=
  (* Step 1 *)
  emit (EvStep StepCapture) ;;;
  e <-- captureContainerStates E ;;;
  emit (EvReturn StepCapture e) ;;;
  match e with
  | Some err =>
      ret (Some (String.append "Failed to capture container states: " err))
  | None =>
      (* Step 2 *)
      j <-- getJob ;;;
      r <-- (if PreservePV (Request j) then
               emit (EvStep StepCheckpoint) ;;;
               r <-- createCheckpoint E ;;;
               match r with
               | Err err =>
                   emit (EvReturn StepCheckpoint (Some err)) ;;;
                   ret (Err err)
               | Ok checkpointPVC =>
                   emit (EvReturn StepCheckpoint None) ;;;
                   modifyDetails (set_CheckpointPath checkpointPVC) ;;;
                   modifyDetails (set_PVClaimName checkpointPVC) ;;;
                   ret (Ok checkpointPVC)
               end
             else ret (Ok "")) ;;;
      match r with
      | Err err =>
          ret (Some (String.append "Failed to create checkpoint: " err))
      | Ok checkpointPVC =>
          (* Step 3 *)
          emit (EvStep StepCreatePod) ;;;
          e <-- createOptimizedPod E checkpointPVC ;;;
          emit (EvReturn StepCreatePod e) ;;;
          match e with
          | Some err =>
              ret (Some (String.append "Failed to create optimized pod: " err))
          | None =>
              (* Step 4 *)
              emit (EvStep StepDeleteOriginal) ;;;
              e <-- deleteOriginalPod E ;;;
              emit (EvReturn StepDeleteOriginal e) ;;;
              (* Step 5 *)
              emit (EvStep StepPostMetrics) ;;;
              e <-- collectPostMigrationMetrics E ;;;
              emit (EvReturn StepPostMetrics e) ;;;
              ret None
          end
      end
  end.

Definition finish (r : option string) : M W unit :=
  match r with
  | Some message => failMigration E message
  | None => completeMigration E
  end.

Definition staged : M W unit :=
  updateJobStatus MigrationStatusRunning ;;;
  r <-- runSteps ;;;
  finish r.



End Stages.

(** What the steps between the two locked stages leave alone: the status
    and the identifier of the job, the metrics, and the statuses in the
    trace. *)
Definition same_status {W} (st st' : St W) : Prop :=
  Status (job st') = Status (job st) /\
  ID (job st') = ID (job st) /\
  mc_metrics st' = mc_metrics st /\
  statuses (trace st') = statuses (trace st).

(** * Facts *)

(** ** Machine integers *)

Lemma Int64_wrap_in_range z : Int64.in_range (Int64.wrap z).
Proof.
  unfold Int64.in_range, Int64.wrap, Int64.min_int, Int64.max_int.
  pose proof (Z.mod_pos_bound (z + 2 ^ 63) (2 ^ 64) ltac:(lia)). lia.
Qed.

Lemma Int64_wrap_small z : Int64.in_range z -> Int64.wrap z = z.
Proof.
  unfold Int64.in_range, Int64.wrap, Int64.min_int, Int64.max_int. intros Hz.
  rewrite Z.mod_small by lia. lia.
Qed.

Lemma Int64_incr_small z :
  Int64.min_int <= z < Int64.max_int -> Int64.incr z = z + 1.
Proof.
  intros Hz. unfold Int64.incr, Int64.add. apply Int64_wrap_small.
  unfold Int64.in_range. lia.
Qed.

(** ** Composing what computations keep *)

Section Keeps.

Context {W : Type} (R : St W -> St W -> Prop).
Hypothesis R_refl : forall st, R st st.
Hypothesis R_trans : forall a b c, R a b -> R b c -> R a c.

Lemma keeps_ret {A} (a : A) : keeps R (ret a).
Proof using R_refl. intros st. apply R_refl. Qed.

Lemma keeps_bind {A B} (m : M W A) (k : A -> M W B) :
  keeps R m -> (forall a, keeps R (k a)) -> keeps R (bind m k).
Proof using R_trans.
  intros Hm Hk st. unfold bind.
  specialize (Hm st). destruct (m st) as [a st1]. cbn [snd] in Hm.
  specialize (Hk a st1). eapply R_trans; eassumption.
Qed.

Lemma keeps_getJob : keeps R getJob.
Proof using R_refl. intros st. apply R_refl. Qed.

Lemma keeps_getMetrics : keeps R getMetrics.
Proof using R_refl. intros st. apply R_refl. Qed.

Lemma keeps_getCheckpointSize : keeps R getCheckpointSize.
Proof using R_refl. intros st. apply R_refl. Qed.

End Keeps.

(** ** The steps leave the control state alone *)

Section StepFacts.

Context {W : Type} (E : Env W) (R : W -> W -> Prop).
Hypothesis HR : EnvKeeps E R.

Lemma same_control_refl (st : St W) : same_control st st.
Proof using Type. unfold same_control. tauto. Qed.

Lemma same_control_trans (a b c : St W) :
  same_control a b -> same_control b c -> same_control a c.
Proof using Type. unfold same_control. intuition congruence. Qed.

Lemma step_rel_refl (st : St W) : step_rel R st st.
Proof using HR. split; [apply (env_refl _ _ HR) | apply same_control_refl]. Qed.

Lemma step_rel_trans (a b c : St W) :
  step_rel R a b -> step_rel R b c -> step_rel R a c.
Proof using HR.
  intros [H1 H2] [H3 H4]. split.
  - exact (env_trans _ _ HR _ _ _ H1 H3).
  - exact (same_control_trans _ _ _ H2 H4).
Qed.

Lemma step_liftW {A} (f : W -> A * W) :
  (forall w, R w (snd (f w))) -> keeps (step_rel R) (liftW f).
Proof using Type.
  intros Hf st. unfold liftW. specialize (Hf (world st)).
  destruct (f (world st)). split; [exact Hf|].
  unfold same_control. cbn. tauto.
Qed.

Lemma step_modifyDetails f :
  (forall d, StartTime (f d) = StartTime d /\
             EndTime (f d) = EndTime d /\ Duration (f d) = Duration d) ->
  keeps (step_rel R) (@modifyDetails W f).
Proof using HR.
  intros Hf st. split; [apply (env_refl _ _ HR)|].
  unfold modifyDetails, modifyJob, same_control. cbn.
  destruct (Hf (Details (job st))) as (? & ? & ?). tauto.
Qed.

Ltac step_tac :=
  repeat first
    [ apply keeps_bind; [ exact step_rel_trans | | intros ]
    | apply keeps_ret; exact step_rel_refl
    | apply keeps_getJob; exact step_rel_refl
    | apply keeps_getCheckpointSize; exact step_rel_refl
    | apply step_liftW; intros; cbn [snd];
      first [ apply (env_Now _ _ HR) | apply (env_Sleep _ _ HR)
            | apply (env_GetPod _ _ HR)
            | apply (env_GetPodContainerStates _ _ HR)
            | apply (env_GetPodMetrics _ _ HR)
            | apply (env_CreatePersistentVolumeClaim _ _ HR)
            | apply (env_CreateOptimizedPod _ _ HR)
            | apply (env_WaitForPodReady _ _ HR)
            | apply (env_DeletePod _ _ HR) ]
    | apply step_modifyDetails; intros; repeat split; reflexivity
    | match goal with
      | |- keeps _ (match ?x with _ => _ end) => destruct x
      end ].

Lemma captureContainerStates_step :
  keeps (step_rel R) (captureContainerStates E).
Proof using HR. unfold captureContainerStates, now. step_tac. Qed.

Lemma createCheckpoint_step : keeps (step_rel R) (createCheckpoint E).
Proof using HR. unfold createCheckpoint, now. step_tac. Qed.

Lemma createOptimizedPod_step pvc :
  keeps (step_rel R) (createOptimizedPod E pvc).
Proof using HR. unfold createOptimizedPod. step_tac. Qed.

Lemma deleteOriginalPod_step : keeps (step_rel R) (deleteOriginalPod E).
Proof using HR. unfold deleteOriginalPod. step_tac. Qed.

Lemma collectPostMigrationMetrics_step :
  keeps (step_rel R) (collectPostMigrationMetrics E).
Proof using HR. unfold collectPostMigrationMetrics, simulate, now. step_tac. Qed.

End StepFacts.

(** ** The terminal transitions *)

Section TerminalFacts.

Context {W : Type} (E : Env W).

Lemma failMigration_spec message (st : St W) :
  let st' := snd (failMigration E message st) in
  let t := fst (Now E (world st)) in
  let d := time_Sub t (JobStartTime (job st)) in
  world st' = snd (Now E (world st)) /\
  job st' =
    set_Details (set_Duration (Some d) (set_EndTime (Some t) (Details (job st))))
                (set_Status MigrationStatusFailed (job st)) /\
  counted MigrationStatusFailed d (mc_metrics st) (mc_metrics st') /\
  mc_checkpointSize st' = mc_checkpointSize st /\
  trace st' =
    trace st ++ [EvStatus MigrationStatusFailed; EvEndTime t; EvDuration d].
Proof.
  unfold failMigration, bind, now, liftW, modifyDetails, modifyJob, emit,
    getJob, getMetrics, putMetrics. cbn.
  destruct (Now E (world st)) as [t w]. cbn.
  rewrite <- !app_assoc. cbn. repeat split; reflexivity.
Qed.

Lemma completeMigration_spec (st : St W) :
  let st' := snd (completeMigration E st) in
  let t := fst (Now E (world st)) in
  let d := time_Sub t (JobStartTime (job st)) in
  world st' = snd (Now E (world st)) /\
  job st' =
    set_Details (set_Duration (Some d) (set_EndTime (Some t) (Details (job st))))
                (set_Status MigrationStatusCompleted (job st)) /\
  counted MigrationStatusCompleted d (mc_metrics st) (mc_metrics st') /\
  mc_checkpointSize st' = mc_checkpointSize st /\
  trace st' =
    trace st ++ [EvStatus MigrationStatusCompleted; EvEndTime t; EvDuration d].
Proof.
  unfold completeMigration, bind, now, liftW, modifyDetails, modifyJob, emit,
    getJob, getMetrics, putMetrics. cbn.
  destruct (Now E (world st)) as [t w]. cbn.
  rewrite <- !app_assoc. cbn.
  destruct (OriginalResources (Details (job st)));
    destruct (OptimizedResources (Details (job st)));
    cbn; repeat split; reflexivity.
Qed.

End TerminalFacts.

(** ** One run of the pipeline *)

Section RunFacts.

Context {W : Type} (E : Env W) (R : W -> W -> Prop).
Hypothesis HR : EnvKeeps E R.

(** Run the next step [f] of the pipeline: name its result [e] and the
    state it ends in, and use [lem] for what it leaves alone. *)
Ltac run_step f lem e :=
  match goal with
  | |- context [f ?s] =>
      let S := fresh "S" in
      pose proof (lem s) as S;
      destruct (f s) as [e [? ? ? ? ?]];
      cbv [step_rel same_control snd world job mc_metrics mc_checkpointSize
           trace] in S;
      cbn [Status Details StartTime EndTime Duration JobStartTime Request
           ctx ID set_Status set_Details set_CheckpointPath set_PVClaimName]
        in S;
      destruct S as (? & ? & ? & ? & ? & ? & ? & ? & ? & ? & ? & ?); subst
  end.

Ltac red_st :=
  cbv beta iota zeta
      delta [world job mc_metrics mc_checkpointSize trace snd fst].

(** Run the terminal transition the goal ends with. *)
Ltac run_fail E :=
  match goal with
  | |- context [failMigration E ?msg ?s] =>
      let F := fresh "F" in
      pose proof (failMigration_spec E msg s) as F;
      destruct (failMigration E msg s) as [[] [? ? ? ? ?]];
      cbv beta iota zeta
          delta [world job mc_metrics mc_checkpointSize trace snd] in F;
      destruct F as (? & ? & ? & ? & ?); subst
  end.

Ltac run_complete E :=
  match goal with
  | |- context [completeMigration E ?s] =>
      let F := fresh "F" in
      pose proof (completeMigration_spec E s) as F;
      destruct (completeMigration E s) as [[] [? ? ? ? ?]];
      cbv beta iota zeta
          delta [world job mc_metrics mc_checkpointSize trace snd] in F;
      destruct F as (? & ? & ? & ? & ?); subst
  end.

Ltac chain_worlds HR :=
  repeat match goal with
         | H1 : ?R ?a ?b, H2 : ?R ?b ?c |- _ =>
             pose proof (env_trans _ _ HR _ _ _ H1 H2); clear H2
         end.

Ltac close_run HR :=
  cbn [Status Details StartTime EndTime Duration JobStartTime Request ctx ID
       set_Status set_Details set_EndTime set_Duration];
  repeat match goal with
         | H : JobStartTime _ = _ |- _ => rewrite H in *; clear H
         end;
  repeat match goal with |- _ /\ _ => split end;
  try solve [ repeat rewrite <- app_assoc; reflexivity
            | congruence | eassumption ];
  eexists; split; [ reflexivity | chain_worlds HR; eassumption ].

(** Steps 3 to 5 and the terminal transition. *)
Ltac run_tail E HR pvc :=
  let e3 := fresh "e3" in
  let e4 := fresh "e4" in
  let e5 := fresh "e5" in
  run_step (createOptimizedPod E pvc) (createOptimizedPod_step E _ HR pvc) e3;
  destruct e3 as [?err|]; red_st;
  [ run_fail E; eexists _, MigrationStatusFailed, _;
    split; [ eapply log_create_failed | close_run HR ]
  | run_step (deleteOriginalPod E) (deleteOriginalPod_step E _ HR) e4; red_st;
    run_step (collectPostMigrationMetrics E)
             (collectPostMigrationMetrics_step E _ HR) e5; red_st;
    run_complete E; eexists _, MigrationStatusCompleted, _;
    split; [ eapply (log_completed _ e4 e5) | close_run HR ] ].

(** Every run writes [running], goes through the steps in one of the
    shapes of [pipeline_log], and ends with one terminal transition, made
    at a time [t] read in a world [w'] the environment reaches from the
    world the run starts in. *)
Lemma executeMigration_run (st : St W) :
  let st' := snd (executeMigration E st) in
  exists log s t,
    let d := time_Sub t (JobStartTime (job st)) in
    pipeline_log (PreservePV (Request (job st))) log s /\
    trace st' =
      trace st ++ EvStatus MigrationStatusRunning :: log ++
      [EvStatus s; EvEndTime t; EvDuration d] /\
    Status (job st') = s /\
    EndTime (Details (job st')) = Some t /\
    Duration (Details (job st')) = Some d /\
    JobStartTime (job st') = JobStartTime (job st) /\
    StartTime (Details (job st')) = StartTime (Details (job st)) /\
    ctx (job st') = ctx (job st) /\
    counted s d (mc_metrics st) (mc_metrics st') /\
    exists w', t = fst (Now E w') /\ R (world st) w'.
Proof using HR.
  destruct st as [w j m cs tr].
  cbv [executeMigration bind updateJobStatus emit modifyJob modifyDetails
       getJob ret world job mc_metrics mc_checkpointSize trace snd].
  run_step (captureContainerStates E) (captureContainerStates_step E _ HR) e1.
  destruct e1 as [err|]; red_st.
  { run_fail E. eexists _, MigrationStatusFailed, _.
    split; [apply (log_capture_failed _ err)|]. close_run HR. }
  match goal with H : Request _ = Request j |- _ => rewrite H end.
  destruct (PreservePV (Request j)) eqn:HP; red_st.
  - run_step (createCheckpoint E) (createCheckpoint_step E _ HR) r2.
    destruct r2 as [pvc|err]; red_st.
    + run_tail E HR pvc.
    + run_fail E. eexists _, MigrationStatusFailed, _.
      split; [apply (log_checkpoint_failed _ err); reflexivity|].
      close_run HR.
  - run_tail E HR EmptyString.
Qed.

End RunFacts.

(** ** Runs from an empty trace *)

Section PipelineFacts.

Context {W : Type} (E : Env W).

Lemma any_world_kept : EnvKeeps E any_world.
Proof. split; intros; exact I. Qed.

Lemma runPipeline_run (R : W -> W -> Prop) (HR : EnvKeeps E R) w j m size :
  let st' := runPipeline E w j m size in
  exists log s t,
    let d := time_Sub t (JobStartTime j) in
    pipeline_log (PreservePV (Request j)) log s /\
    trace st' =
      EvStatus MigrationStatusRunning :: log ++
      [EvStatus s; EvEndTime t; EvDuration d] /\
    Status (job st') = s /\
    EndTime (Details (job st')) = Some t /\
    Duration (Details (job st')) = Some d /\
    JobStartTime (job st') = JobStartTime j /\
    StartTime (Details (job st')) = StartTime (Details j) /\
    ctx (job st') = ctx j /\
    counted s d m (mc_metrics st') /\
    exists w', t = fst (Now E w') /\ R w w'.
Proof.
  exact (executeMigration_run E R HR (mkSt w j m size [])).
Qed.

Lemma steps_cons_nil e tl : steps (e :: tl) = [] -> steps tl = [].
Proof. destruct e; intros H; cbn in H; try discriminate; exact H. Qed.

Lemma halts_without_steps tl : steps tl = [] -> halts_at_failure tl = true.
Proof.
  induction tl as [|e tl IH]; intros Hs; [reflexivity|].
  pose proof (steps_cons_nil _ _ Hs) as Hs'.
  destruct e as [| | | |s [err|]]; cbn; auto.
  change (omap _ tl) with (steps tl). rewrite Hs'.
  rewrite (IH Hs'). destruct (fail_fast s); reflexivity.
Qed.

(** What the shapes of a run say about the trace. *)
Lemma pipeline_log_reading preserve log s :
  pipeline_log preserve log s ->
  statuses log = [] /\ endTimes log = [] /\ durations log = [] /\
  is_terminal s = true /\
  (s = MigrationStatusFailed <-> failFastErrors log <> []) /\
  (s = MigrationStatusCompleted <-> failFastErrors log = []) /\
  (forall tl, steps tl = [] -> halts_at_failure (log ++ tl) = true) /\
  steps log `prefix_of` pipeline_steps preserve /\
  (s = MigrationStatusCompleted -> steps log = pipeline_steps preserve) /\
  (length (failFastErrors log) <= 1)%nat.
Proof.
  intros H. inversion H; subst; clear H;
    try destruct preserve; try destruct e4; try destruct e5;
    cbn; repeat split;
    try solve [ reflexivity | discriminate | congruence | lia
              | intros; discriminate
              | intros tl Htl; cbn; change (omap _ tl) with (steps tl);
                rewrite ?Htl; cbn; apply halts_without_steps; exact Htl
              | eexists; reflexivity ].
Qed.


(** Reading the whole trace of a run. *)
Lemma run_trace_reading preserve log s t d :
  pipeline_log preserve log s ->
  let tr := EvStatus MigrationStatusRunning :: log ++
            [EvStatus s; EvEndTime t; EvDuration d] in
  statuses tr = [MigrationStatusRunning; s] /\
  endTimes tr = [t] /\
  durations tr = [d] /\
  steps tr = steps log /\
  failFastErrors tr = failFastErrors log.
Proof.
  intros H. destruct (pipeline_log_reading _ _ _ H) as (Hs & He & Hd & _).
  cbv zeta. unfold statuses, endTimes, durations, steps, failFastErrors in *.
  cbn. rewrite !omap_app, Hs, He, Hd. cbn.
  rewrite !app_nil_r. repeat split; reflexivity.
Qed.

End PipelineFacts.

(** ** Submitting a job and running it *)

Section RegistryFacts.

Context {W : Type} (E : Env W).

Lemma StartMigration_job (req : MigrationRequest) (mc : MigrationController)
    (w : W) :
  let '(r, l, mc1, w1) := StartMigration E req mc w in
  snd r = None /\
  l = length (heap mc) /\
  exists j,
    heap mc1 = heap mc ++ [j] /\
    migrations mc1 = <[ID j := l]> (migrations mc) /\
    metrics mc1 = metrics mc /\
    checkpointSize mc1 = checkpointSize mc /\
    MigrationID (fst r) = ID j /\
    RespStatus (fst r) = MigrationStatusPending /\
    RespDetails (fst r) = l /\
    Status j = MigrationStatusPending /\
    Request j = req /\
    EndTime (Details j) = None /\
    Duration (Details j) = None.
Proof.
  unfold StartMigration, context_WithTimeout.
  destruct (NewUUID E w) as [u w0].
  destruct (Now E w0) as [t0 w1].
  destruct (Timeout req =? 0).
  - destruct (Now E w1) as [t0' w1'].
    destruct (Now E w1') as [t1 w2]. destruct (Now E w2) as [t2 w3].
    cbn. repeat split. eexists. repeat split.
  - destruct (Now E w1) as [t1 w2]. destruct (Now E w2) as [t2 w3].
    cbn. repeat split. eexists. repeat split.
Qed.

(** With a clock that does not run backwards, the start time of the job
    is not after the start time of its details, and neither is after the
    clock of the world [StartMigration] ends in. *)
Lemma StartMigration_clock (clk : W -> time_Time) (HM : MonotoneClock E clk)
    (req : MigrationRequest) (mc : MigrationController) (w : W) :
  let '(_, l, mc1, w1) := StartMigration E req mc w in
  forall j, heap mc1 !! l = Some j ->
            JobStartTime j <= StartTime (Details j) <= clk w1.
Proof.
  destruct HM as [HK HN].
  unfold StartMigration, context_WithTimeout.
  destruct (NewUUID E w) as [u w0].
  destruct (Now E w0) as [t0 w1].
  assert (Hstep : forall wa, let '(t1, wb) := Now E wa in
                             let '(t2, wc) := Now E wb in
                             t1 <= t2 <= clk wc).
  { intros wa. pose proof (HN wa) as Ha.
    destruct (Now E wa) as [t1 wb]. pose proof (HN wb) as Hb.
    destruct (Now E wb) as [t2 wc]. cbn in *. lia. }
  destruct (Timeout req =? 0).
  - destruct (Now E w1) as [t0' w1'].
    specialize (Hstep w1').
    destruct (Now E w1') as [t1 w2]. destruct (Now E w2) as [t2 w3].
    cbn. intros j Hj. rewrite list_lookup_middle in Hj by reflexivity.
    injection Hj as <-. exact Hstep.
  - specialize (Hstep w1).
    destruct (Now E w1) as [t1 w2]. destruct (Now E w2) as [t2 w3].
    cbn. intros j Hj. rewrite list_lookup_middle in Hj by reflexivity.
    injection Hj as <-. exact Hstep.
Qed.

Lemma runJob_run (l : loc) (mc : MigrationController) (w : W)
    (j : MigrationJob) :
  heap mc !! l = Some j ->
  let st' := runPipeline E w j (metrics mc) (checkpointSize mc) in
  let '(mc2, _, tr) := runJob E l mc w in
  heap mc2 !! l = Some (job st') /\
  metrics mc2 = mc_metrics st' /\
  migrations mc2 = migrations mc /\
  tr = trace st'.
Proof.
  intros Hj. unfold runJob. rewrite Hj. cbn.
  split; [|repeat split].
  apply list_lookup_insert_eq. eapply lookup_lt_Some. exact Hj.
Qed.

End RegistryFacts.

(** ** The stages of a run *)

Section StageFacts.

Context {W : Type} (E : Env W).

(** The three stages, one after the other, are the run. *)
Lemma executeMigration_staged (st : St W) :
  executeMigration E st = staged E st.
Proof.
  destruct st as [w j m cs tr].
  cbv [executeMigration staged runSteps finish bind updateJobStatus emit
       modifyJob modifyDetails getJob ret world job mc_metrics
       mc_checkpointSize trace].
  repeat first
    [ reflexivity
    | match goal with
      | |- context [match ?x with _ => _ end] => destruct x
      end ].
Qed.

Lemma updateJobStatus_spec status (st : St W) :
  let st' := snd (updateJobStatus status st) in
  world st' = world st /\
  job st' = set_Status status (job st) /\
  mc_metrics st' = mc_metrics st /\
  mc_checkpointSize st' = mc_checkpointSize st /\
  trace st' = trace st ++ [EvStatus status].
Proof. cbn. repeat split; reflexivity. Qed.

Lemma finish_status r (st : St W) :
  Status (job (snd (finish E r st))) =
    match r with
    | Some _ => MigrationStatusFailed
    | None => MigrationStatusCompleted
    end.
Proof.
  destruct r as [message|]; unfold finish.
  - destruct (failMigration_spec E message st) as (_ & -> & _). reflexivity.
  - destruct (completeMigration_spec E st) as (_ & -> & _). reflexivity.
Qed.

Lemma same_status_refl (st : St W) : same_status st st.
Proof. unfold same_status. tauto. Qed.

Lemma same_status_trans (a b c : St W) :
  same_status a b -> same_status b c -> same_status a c.
Proof. unfold same_status. intuition congruence. Qed.

Lemma status_liftW {A} (f : W -> A * W) : keeps same_status (liftW f).
Proof.
  intros st. unfold liftW. destruct (f (world st)).
  unfold same_status. cbn. tauto.
Qed.

Lemma status_modifyDetails f : keeps same_status (@modifyDetails W f).
Proof.
  intros st. unfold modifyDetails, modifyJob, same_status. cbn. tauto.
Qed.

Lemma status_emit_step s : keeps same_status (@emit W (EvStep s)).
Proof.
  intros st. unfold emit, same_status, statuses. cbn.
  rewrite omap_app. cbn. rewrite app_nil_r. tauto.
Qed.

Lemma status_emit_return s e : keeps same_status (@emit W (EvReturn s e)).
Proof.
  intros st. unfold emit, same_status, statuses. cbn.
  rewrite omap_app. cbn. rewrite app_nil_r. tauto.
Qed.

Ltac status_tac :=
  repeat first
    [ apply keeps_bind; [ exact same_status_trans | | intros ]
    | apply keeps_ret; exact same_status_refl
    | apply keeps_getJob; exact same_status_refl
    | apply keeps_getCheckpointSize; exact same_status_refl
    | apply status_liftW
    | apply status_emit_step
    | apply status_emit_return
    | apply status_modifyDetails
    | match goal with
      | |- keeps _ (match ?x with _ => _ end) => destruct x
      end ].

(** No step writes the status, and none adds a status to the trace. *)
Lemma runSteps_status : keeps same_status (runSteps E).
Proof.
  unfold runSteps, captureContainerStates, createCheckpoint,
    createOptimizedPod, deleteOriginalPod, collectPostMigrationMetrics,
    simulate, now.
  cbv zeta. status_tac.
Qed.

(** The stages of a run that starts with the job [j0] and an empty trace:
    the dispatch sets the status to [running], the steps leave it there,
    and the terminal transition ends the run. *)
Lemma stages_of_run (w : W) (j0 : MigrationJob) (m : MigrationMetrics)
    (size : string) :
  let st0 := mkSt w j0 m size [] in
  let st1 := snd (updateJobStatus MigrationStatusRunning st0) in
  let st2 := snd (runSteps E st1) in
  let st3 := snd (finish E (fst (runSteps E st1)) st2) in
  Status (job st1) = MigrationStatusRunning /\
  statuses (trace st1) = [MigrationStatusRunning] /\
  Status (job st2) = MigrationStatusRunning /\
  statuses (trace st2) = [MigrationStatusRunning] /\
  ID (job st2) = ID j0 /\
  mc_metrics st2 = m /\
  st3 = snd (executeMigration E st0).
Proof.
  cbv zeta.
  set (st1 := snd (updateJobStatus MigrationStatusRunning
                     (mkSt w j0 m size []))).
  destruct (runSteps_status st1) as (Hs & Hi & Hm & Ht).
  split; [reflexivity|]. split; [reflexivity|].
  split; [rewrite Hs; reflexivity|]. split; [rewrite Ht; reflexivity|].
  split; [rewrite Hi; reflexivity|]. split; [rewrite Hm; reflexivity|].
  rewrite executeMigration_staged. unfold staged, bind. cbn [updateJobStatus].
  fold st1.
  change (let (_, st') := updateJobStatus MigrationStatusRunning
                            (mkSt w j0 m size []) in
          let (r, st'') := runSteps E st' in finish E r st'')
    with (let (r, st'') := runSteps E st1 in finish E r st'').
  destruct (runSteps E st1) as [r st2]. reflexivity.
Qed.

End StageFacts.

(** * Properties of the controller *)

(** ** Savings at the completed transition *)

Section Savings.

Context {W : Type} (E : Env W).

Lemma completeMigration_metrics (st : St W) :
  let m := mc_metrics st in
  let t := fst (Now E (world st)) in
  let d := time_Sub t (JobStartTime (job st)) in
  let total := Int64.incr (TotalMigrations m) in
  mc_metrics (snd (completeMigration E st)) =
    {| TotalMigrations := total;
       SuccessfulMigrations := Int64.incr (SuccessfulMigrations m);
       FailedMigrations := FailedMigrations m;
       AverageDuration := updateAverage (AverageDuration m) total d;
       CPUSavings :=
         match OriginalResources (Details (job st)),
               OptimizedResources (Details (job st)) with
         | Some o, Some p => cpuSavings o p
         | _, _ => CPUSavings m
         end;
       MemorySavings :=
         match OriginalResources (Details (job st)),
               OptimizedResources (Details (job st)) with
         | Some o, Some p => memorySavings o p
         | _, _ => MemorySavings m
         end |}.
Proof.
  unfold completeMigration, bind, now, liftW, modifyDetails, modifyJob, emit,
    getJob, getMetrics, putMetrics. cbn.
  destruct (Now E (world st)) as [t w]. cbn.
  destruct (OriginalResources (Details (job st)));
    destruct (OptimizedResources (Details (job st))); reflexivity.
Qed.

(** C3.  At the completed transition the savings are written exactly when
    both samples are present: then the cpu saving is
    (original - optimized) / original * 100 on the cpu values and the
    memory saving the same on the memory values (the difference taken in
    int64, then converted); when a sample is absent both fields keep the
    value they had.  For original {cpu 2.0, memory 1000} and optimized
    {cpu 1.0, memory 600} the stored savings are exactly 50.0 and 40.0. *)
Theorem C3_savings_at_completion (st : St W) :
  let m := mc_metrics st in
  let m' := mc_metrics (snd (completeMigration E st)) in
  match OriginalResources (Details (job st)),
        OptimizedResources (Details (job st)) with
  | Some o, Some p =>
      CPUSavings m' =
        PrimFloat.mul
          (PrimFloat.div (PrimFloat.sub (CPUUsage o) (CPUUsage p)) (CPUUsage o))
          100%float /\
      MemorySavings m' =
        PrimFloat.mul
          (PrimFloat.div
             (Float64.of_int64 (Int64.sub (MemoryUsage o) (MemoryUsage p)))
             (Float64.of_int64 (MemoryUsage o)))
          100%float
  | _, _ =>
      CPUSavings m' = CPUSavings m /\ MemorySavings m' = MemorySavings m
  end /\
  forall t1 t2,
    let ex :=
      mc_metrics
        (snd (completeMigration E
                (with_resources (Some (sampleAt 2%float 1000 t1))
                                (Some (sampleAt 1%float 600 t2)) st))) in
    CPUSavings ex = 50%float /\ MemorySavings ex = 40%float.
Proof.
  cbv zeta. split.
  - rewrite completeMigration_metrics. cbn.
    destruct (OriginalResources (Details (job st)));
      destruct (OptimizedResources (Details (job st))); split; reflexivity.
  - intros t1 t2. rewrite completeMigration_metrics. cbn.
    split; vm_compute; reflexivity.
Qed.

End Savings.

(** ** The estimate recorded when sampling the new pod fails *)

Section Fallback.

Context {W : Type} (E : Env W).

(** The world in which step 5 asks for the metrics of the new pod: the
    one the settle delay ends in. *)
Lemma collectPostMigrationMetrics_failed (st : St W) o err w1 :
  NewPodName (Details (job st)) <> EmptyString ->
  OriginalResources (Details (job st)) = Some o ->
  GetPodMetrics E (ctx (job st)) (PodNamespace (Request (job st)))
    (NewPodName (Details (job st)))
    (Sleep E (30 * time_Second) (world st)) = (Err err, w1) ->
  collectPostMigrationMetrics E st =
    (None,
     mkSt (snd (Now E w1))
          (set_Details
             (set_OptimizedResources
                (Some (simulatedResources o (fst (Now E w1))))
                (Details (job st)))
             (job st))
          (mc_metrics st) (mc_checkpointSize st) (trace st)).
Proof.
  intros Hn Ho Hm.
  unfold collectPostMigrationMetrics, simulate, bind, liftW, getJob, ret, now,
    modifyDetails, modifyJob. cbn.
  destruct (String.eqb_spec (NewPodName (Details (job st))) EmptyString)
    as [Heq|_]; [contradiction|]. cbn.
  rewrite Hm. cbn. rewrite Ho. unfold now, liftW. cbn.
  destruct (Now E w1) as [t w2]. reflexivity.
Qed.

Lemma collectPostMigrationMetrics_measured (st : St W) r w1 :
  NewPodName (Details (job st)) <> EmptyString ->
  GetPodMetrics E (ctx (job st)) (PodNamespace (Request (job st)))
    (NewPodName (Details (job st)))
    (Sleep E (30 * time_Second) (world st)) = (Ok r, w1) ->
  collectPostMigrationMetrics E st =
    (None,
     mkSt w1
          (set_Details (set_OptimizedResources (Some r) (Details (job st)))
                       (job st))
          (mc_metrics st) (mc_checkpointSize st) (trace st)).
Proof.
  intros Hn Hm.
  unfold collectPostMigrationMetrics, bind, liftW, getJob, ret,
    modifyDetails, modifyJob. cbn.
  destruct (String.eqb_spec (NewPodName (Details (job st))) EmptyString)
    as [Heq|_]; [contradiction|]. cbn.
  rewrite Hm. reflexivity.
Qed.

End Fallback.

(** C4 (amended).  When the metrics call of step 5 fails and an original
    sample exists, the optimized sample recorded is the original scaled by
    0.5 for cpu and by 0.6 for memory (the product cut to an integer), so
    that original {cpu 2.0, memory 1000} gives {cpu 1.0, memory 600}.  The
    recorded sample has a cpu value, a memory value and a timestamp and
    nothing else: a run in which the same values are measured records the
    same job. *)
Theorem C4_fallback_estimate {W : Type} (E : Env W) (st : St W)
    (o : ResourceUsage) (err : string) (w1 : W) :
  NewPodName (Details (job st)) <> EmptyString ->
  OriginalResources (Details (job st)) = Some o ->
  GetPodMetrics E (ctx (job st)) (PodNamespace (Request (job st)))
    (NewPodName (Details (job st)))
    (Sleep E (30 * time_Second) (world st)) = (Err err, w1) ->
  let st' := snd (collectPostMigrationMetrics E st) in
  let estimate :=
    {| CPUUsage := PrimFloat.mul (CPUUsage o) 0.5%float;
       MemoryUsage :=
         Float64.to_int64
           (PrimFloat.mul (Float64.of_int64 (MemoryUsage o)) Float64.c_0_6);
       Timestamp := fst (Now E w1) |} in
  OptimizedResources (Details (job st')) = Some estimate /\
  (CPUUsage o = 2%float -> MemoryUsage o = 1000 ->
   CPUUsage estimate = 1%float /\ MemoryUsage estimate = 600) /\
  forall (st2 : St W) (w2 : W),
    job st2 = job st ->
    GetPodMetrics E (ctx (job st2)) (PodNamespace (Request (job st2)))
      (NewPodName (Details (job st2)))
      (Sleep E (30 * time_Second) (world st2)) = (Ok estimate, w2) ->
    job (snd (collectPostMigrationMetrics E st2)) = job st'.
Proof.
  intros Hn Ho Hm. cbv zeta.
  rewrite (collectPostMigrationMetrics_failed E st o err w1 Hn Ho Hm).
  cbn [snd job Details set_Details OptimizedResources set_OptimizedResources].
  split; [reflexivity|]. split.
  - intros Hc Hmem. cbn [CPUUsage MemoryUsage]. rewrite Hc, Hmem.
    split; vm_compute; reflexivity.
  - intros st2 w2 Hj Hm2.
    assert (Hn2 : NewPodName (Details (job st2)) <> EmptyString)
      by (rewrite Hj; exact Hn).
    rewrite (collectPostMigrationMetrics_measured E st2 _ w2 Hn2 Hm2).
    cbn [snd job]. rewrite Hj. reflexivity.
Qed.

(** C4, on the simulated cluster: the metrics server does not know the
    migrated pod, and the estimate for {2.0, 1000} is {1.0, 600}. *)
Lemma C4_fallback_estimate_witness :
  let st := Sim.migrated Sim.healthy in
  NewPodName (Details (job st)) <> EmptyString /\
  OriginalResources (Details (job st)) = Some (Sim.sample 2%float 1000) /\
  GetPodMetrics Sim.env (ctx (job st)) (PodNamespace (Request (job st)))
    (NewPodName (Details (job st)))
    (Sleep Sim.env (30 * time_Second) (world st)) =
    (Err "pod metrics not found", Sim.advance 30001000000 Sim.healthy) /\
  OptimizedResources
    (Details (job (snd (collectPostMigrationMetrics Sim.env st)))) =
  Some {| CPUUsage := 1%float; MemoryUsage := 600; Timestamp := 30001000000 |}.
Proof.
  cbv zeta.
  assert (Hn : NewPodName (Details (job (Sim.migrated Sim.healthy)))
               <> EmptyString) by discriminate.
  assert (Ho : OriginalResources (Details (job (Sim.migrated Sim.healthy)))
               = Some (Sim.sample 2%float 1000)) by reflexivity.
  assert (Hm : GetPodMetrics Sim.env (ctx (job (Sim.migrated Sim.healthy)))
                 (PodNamespace (Request (job (Sim.migrated Sim.healthy))))
                 (NewPodName (Details (job (Sim.migrated Sim.healthy))))
                 (Sleep Sim.env (30 * time_Second)
                    (world (Sim.migrated Sim.healthy))) =
               (Err "pod metrics not found",
                Sim.advance 30001000000 Sim.healthy))
    by (vm_compute; reflexivity).
  split; [exact Hn|]. split; [exact Ho|]. split; [exact Hm|].
  exact (proj1 (C4_fallback_estimate Sim.env (Sim.migrated Sim.healthy)
                  _ _ _ Hn Ho Hm)).
Defined.

(** C4 as stated fails: no marker on the recorded sample tells an estimate
    from a measurement.  On the simulated cluster the sample recorded when
    sampling fails and the sample recorded when the server reports 1 core
    and 600 bytes are the same. *)
Lemma C4_no_provenance_marker : ~ exists marker, marks_estimates marker.
Proof.
  intros [marker H].
  pose (r := {| CPUUsage := 1%float; MemoryUsage := 600;
                Timestamp := 30001000000 |}).
  assert (He : marker r = true).
  { apply (H (Sim.migrated Sim.healthy) r).
    - discriminate.
    - discriminate.
    - vm_compute. reflexivity. }
  assert (Hm : marker r = false).
  { apply (H (Sim.migrated Sim.measuring) r).
    - discriminate.
    - discriminate.
    - vm_compute. reflexivity. }
  congruence.
Qed.

(** ** Division by a zero original sample *)

Section ZeroOriginal.

Context {W : Type} (E : Env W).

(** When the metrics of the original pod cannot be collected, step 1
    records a zero-value sample and goes on. *)
Lemma captureContainerStates_zero_sample (st : St W) pod states err w1 w2 w3 :
  GetPod E (ctx (job st)) (PodNamespace (Request (job st)))
    (PodName (Request (job st))) (world st) = (Ok pod, w1) ->
  GetPodContainerStates E (ctx (job st)) pod w1 = (Ok states, w2) ->
  GetPodMetrics E (ctx (job st)) (PodNamespace (Request (job st)))
    (PodName (Request (job st))) w2 = (Err err, w3) ->
  fst (captureContainerStates E st) = None /\
  OriginalResources (Details (job (snd (captureContainerStates E st)))) =
    Some (sampleAt 0%float 0 (fst (Now E w3))).
Proof.
  intros H1 H2 H3.
  unfold captureContainerStates, bind, liftW, getJob, ret, modifyDetails,
    modifyJob. cbn.
  rewrite H1. cbn. rewrite H2. cbn. rewrite H3. cbn.
  unfold now, liftW. cbn. destruct (Now E w3) as [t w4]. cbn.
  split; reflexivity.
Qed.

End ZeroOriginal.

(** C10.  The savings computation has no guard against a zero original
    sample.  When the metrics of the original pod cannot be collected,
    step 1 records the zero-value sample and does not fail.  With that
    sample and the estimate step 5 derives from it, the completed
    transition stores NaN for both savings, from every state.  There is
    such an execution: on the simulated cluster without a metrics server
    the original collection fails, step 1 records the zero-value sample,
    both samples are present at the end, the job completes and the stored
    CPUSavings and MemorySavings are not finite. *)
Theorem C10_zero_original_savings_not_finite :
  (forall (W : Type) (E : Env W) (st : St W) pod states err w1 w2 w3,
     GetPod E (ctx (job st)) (PodNamespace (Request (job st)))
       (PodName (Request (job st))) (world st) = (Ok pod, w1) ->
     GetPodContainerStates E (ctx (job st)) pod w1 = (Ok states, w2) ->
     GetPodMetrics E (ctx (job st)) (PodNamespace (Request (job st)))
       (PodName (Request (job st))) w2 = (Err err, w3) ->
     fst (captureContainerStates E st) = None /\
     OriginalResources (Details (job (snd (captureContainerStates E st)))) =
       Some (sampleAt 0%float 0 (fst (Now E w3)))) /\
  (forall (W : Type) (E : Env W) (st : St W) (t t' : time_Time),
     let original := sampleAt 0%float 0 t in
     let m' :=
       mc_metrics
         (snd (completeMigration E
                 (with_resources (Some original)
                    (Some (simulatedResources original t')) st))) in
     PrimFloat.is_nan (CPUSavings m') = true /\
     PrimFloat.is_nan (MemorySavings m') = true) /\
  (let req := Sim.request false 0 in
   let '(mc, _, _) := Sim.submit_and_run req Sim.without_metrics in
   Sim.usage Sim.without_metrics !! PodName req = None /\
   exists j original optimized,
     heap mc !! 0%nat = Some j /\
     Status j = MigrationStatusCompleted /\
     OriginalResources (Details j) = Some original /\
     CPUUsage original = 0%float /\ MemoryUsage original = 0 /\
     OptimizedResources (Details j) = Some optimized /\
     PrimFloat.is_finite (CPUSavings (metrics mc)) = false /\
     PrimFloat.is_finite (MemorySavings (metrics mc)) = false).
Proof.
  split; [|split].
  - intros W E st pod states err w1 w2 w3.
    apply captureContainerStates_zero_sample.
  - intros W E st t t'. cbv zeta.
    rewrite completeMigration_metrics. cbn.
    split; vm_compute; reflexivity.
  - vm_compute. split; [reflexivity|].
    eexists _, _, _. repeat split; reflexivity.
Qed.

(** C10, step 1 on the simulated cluster without a metrics server: the
    pod is found, its containers are read, the metrics call fails, and the
    sample recorded is the zero value. *)
Lemma C10_zero_original_witness :
  let st := mkSt Sim.without_metrics (job (Sim.migrated Sim.healthy))
                 zeroMetrics "1Gi" [] in
  fst (captureContainerStates Sim.env st) = None /\
  OriginalResources (Details (job (snd (captureContainerStates Sim.env st)))) =
    Some (sampleAt 0%float 0 3000000).
Proof.
  cbv zeta.
  refine (proj1 C10_zero_original_savings_not_finite Sim.World Sim.env
            (mkSt Sim.without_metrics (job (Sim.migrated Sim.healthy))
                  zeroMetrics "1Gi" [])
            {| pod_Name := "p1"; pod_Namespace := "default" |}
            (Sim.containers Sim.healthy) "pod metrics not found"
            (Sim.advance 1000000 Sim.without_metrics)
            (Sim.advance 2000000 Sim.without_metrics)
            (Sim.advance 3000000 Sim.without_metrics) _ _ _);
    vm_compute; reflexivity.
Defined.

(** ** The outcome of a run *)



(** C7.  A failure in a best-effort step does not change the outcome.
    Step 5 never hands back an error, whatever the metrics call does.  If
    no fail-fast step handed back an error the job ends [completed]; and
    whenever the deletion of the original pod handed back anything, an
    error included, the job ends [completed]. *)
Theorem C7_best_effort_contained {W : Type} (E : Env W)
    (w : W) (j : MigrationJob) (m : MigrationMetrics) (size : string) :
  let st' := runPipeline E w j m size in
  let tr := trace st' in
  (forall st, fst (collectPostMigrationMetrics E st) = None) /\
  (failFastErrors tr = [] -> Status (job st') = MigrationStatusCompleted) /\
  (forall e4, In (EvReturn StepDeleteOriginal e4) tr ->
              Status (job st') = MigrationStatusCompleted) /\
  (forall e5, In (EvReturn StepPostMetrics e5) tr ->
              Status (job st') = MigrationStatusCompleted).
Proof.
  cbv zeta. split.
  { intros st. unfold collectPostMigrationMetrics, simulate, bind, liftW,
      getJob, ret, modifyDetails, modifyJob, now. cbn.
    repeat match goal with
           | |- context [match ?x with _ => _ end] => destruct x; cbn
           end; reflexivity. }
  destruct (runPipeline_run E any_world (any_world_kept E) w j m size)
    as (log & s & t & Hlog & Htr & Hst & _).
  destruct (run_trace_reading _ _ _ t (time_Sub t (JobStartTime j)) Hlog)
    as (_ & _ & _ & _ & Hff).
  destruct (pipeline_log_reading _ _ _ Hlog)
    as (_ & _ & _ & _ & _ & Hc & _).
  rewrite Htr, Hst, Hff. split; [apply Hc|].
  clear Htr Hst Hff Hc.
  destruct (PreservePV (Request j));
    inversion Hlog; subst; clear Hlog;
    (split; intros e Hin; try reflexivity;
     cbn in Hin; intuition discriminate).
Qed.

(** C7, on the simulated cluster: the cluster refuses to delete the
    original pod and the metrics server does not know the migrated pod, so
    both best-effort steps fail; no fail-fast step fails, and the job
    completes. *)
Lemma C7_best_effort_contained_witness :
  let bad c := match c with Sim.CDeletePod => true | _ => false end in
  let st' := runPipeline Sim.env (Sim.rejecting bad)
               (Sim.pending (Sim.request false 0)) zeroMetrics "1Gi" in
  failFastErrors (trace st') = [] /\
  In (EvReturn StepDeleteOriginal
        (Some "failed to delete original pod: rejected by the cluster"))
     (trace st') /\
  sampling_failed Sim.env
    (mkSt (Sim.advance 7000000 (Sim.rejecting bad))
          (job (Sim.migrated Sim.healthy)) zeroMetrics "1Gi" []) = true /\
  Status (job st') = MigrationStatusCompleted.
Proof.
  cbv zeta.
  pose (bad := fun c => match c with Sim.CDeletePod => true | _ => false end).
  assert (Hff : failFastErrors
                  (trace (runPipeline Sim.env (Sim.rejecting bad)
                            (Sim.pending (Sim.request false 0))
                            zeroMetrics "1Gi"))
                = []) by (vm_compute; reflexivity).
  split; [exact Hff|].
  split; [vm_compute; tauto|].
  split; [vm_compute; reflexivity|].
  exact (proj1 (proj2 (C7_best_effort_contained Sim.env (Sim.rejecting bad)
                         (Sim.pending (Sim.request false 0))
                         zeroMetrics "1Gi"))
               Hff).
Defined.

(** ** The life of a job *)

(** C2.  The status of a job is [pending] when [StartMigration] has
    registered it; its goroutine then writes [running] and after that one
    terminal status, [completed] or [failed], and nothing more.  Hence the
    statuses written ascend in the order pending < running < {completed,
    failed}, [pending] is never written again, and no write follows the
    terminal one.

    The status field of the job goes the same way, stage by stage.  After
    the dispatch it holds [running]; steps 1 to 5 leave it there, since no
    step writes it; the terminal transition then sets it to the terminal
    status, which is the one the job is found with after the run.  At the
    end of each stage the statuses in the trace are the values the field
    has held. *)
Theorem C2_status_order {W : Type} (E : Env W) (req : MigrationRequest)
    (mc : MigrationController) (w w2 : W) :
  let '(_, l, mc1, _) := StartMigration E req mc w in
  let '(mc2, _, tr) := runJob E l mc1 w2 in
  exists j0 j s,
    heap mc1 !! l = Some j0 /\ Status j0 = MigrationStatusPending /\
    heap mc2 !! l = Some j /\ Status j = s /\
    statuses tr = [MigrationStatusRunning; s] /\
    is_terminal s = true /\
    ascending (MigrationStatusPending :: statuses tr) = true /\
    ~ In MigrationStatusPending (statuses tr) /\
    (forall pre a post,
       statuses tr = pre ++ a :: post -> is_terminal a = true -> post = []) /\
    let st0 := mkSt w2 j0 (metrics mc1) (checkpointSize mc1) [] in
    let st1 := snd (updateJobStatus MigrationStatusRunning st0) in
    let st2 := snd (runSteps E st1) in
    let st3 := snd (finish E (fst (runSteps E st1)) st2) in
    Status (job st1) = MigrationStatusRunning /\
    statuses (trace st1) = [MigrationStatusRunning] /\
    Status (job st2) = MigrationStatusRunning /\
    statuses (trace st2) = [MigrationStatusRunning] /\
    st3 = snd (executeMigration E st0) /\
    job st3 = j /\
    trace st3 = tr /\
    (forall st,
       Status (job (snd (captureContainerStates E st))) = Status (job st)) /\
    (forall st,
       Status (job (snd (createCheckpoint E st))) = Status (job st)) /\
    (forall pvc st,
       Status (job (snd (createOptimizedPod E pvc st))) = Status (job st)) /\
    (forall st,
       Status (job (snd (deleteOriginalPod E st))) = Status (job st)) /\
    (forall st,
       Status (job (snd (collectPostMigrationMetrics E st))) =
       Status (job st)).
Proof.
  pose proof (StartMigration_job E req mc w) as HS.
  destruct (StartMigration E req mc w) as [[[r l] mc1] w1].
  destruct HS as (_ & Hl & j0 & Hheap & _ & _ & _ & _ & _ & _ & Hp & _).
  assert (Hj0 : heap mc1 !! l = Some j0).
  { rewrite Hheap, Hl. apply list_lookup_middle. reflexivity. }
  pose proof (runJob_run E l mc1 w2 j0 Hj0) as HR. cbv zeta in HR.
  destruct (runJob E l mc1 w2) as [[mc2 w3] tr].
  destruct HR as (Hj & _ & _ & Htr).
  destruct (runPipeline_run E any_world (any_world_kept E) w2 j0
              (metrics mc1) (checkpointSize mc1))
    as (log & s & t & Hlog & Htr' & Hst & _).
  destruct (run_trace_reading _ _ _ t (time_Sub t (JobStartTime j0)) Hlog)
    as (Hss & _).
  destruct (pipeline_log_reading _ _ _ Hlog) as (_ & _ & _ & Hterm & _).
  pose proof (stages_of_run E w2 j0 (metrics mc1) (checkpointSize mc1))
    as HG. cbv zeta in HG.
  destruct HG as (G1 & G2 & G3 & G4 & _ & _ & G5).
  exists j0, (job (runPipeline E w2 j0 (metrics mc1) (checkpointSize mc1))), s.
  split; [exact Hj0|]. split; [exact Hp|]. split; [exact Hj|].
  split; [exact Hst|].
  assert (Htrace : statuses tr = [MigrationStatusRunning; s])
    by (rewrite Htr, Htr'; exact Hss).
  split; [exact Htrace|]. split; [exact Hterm|].
  rewrite Htrace.
  split; [destruct s; try discriminate Hterm; reflexivity|].
  split; [destruct s; try discriminate Hterm; cbn; intuition discriminate|].
  split.
  { intros [|a1 [|a2 [|a3 pre]]] a post Heq Ha;
      cbn in Heq; simplify_eq; try reflexivity; discriminate. }
  cbv zeta.
  split; [exact G1|]. split; [exact G2|]. split; [exact G3|].
  split; [exact G4|]. split; [exact G5|].
  split; [rewrite G5; reflexivity|].
  split; [rewrite G5, Htr; reflexivity|].
  split; [intros st; apply (captureContainerStates_step E any_world
                              (any_world_kept E) st)|].
  split; [intros st; apply (createCheckpoint_step E any_world
                              (any_world_kept E) st)|].
  split; [intros pvc st; apply (createOptimizedPod_step E any_world
                                  (any_world_kept E) pvc st)|].
  split; [intros st; apply (deleteOriginalPod_step E any_world
                              (any_world_kept E) st)
         |intros st; apply (collectPostMigrationMetrics_step E any_world
                              (any_world_kept E) st)].
Qed.

(** The clock of the simulated cluster does not run backwards. *)
Lemma Sim_clock_monotone : MonotoneClock Sim.env Sim.clock.
Proof.
  assert (Hadv : forall d w, Sim.clock w <= Sim.clock (Sim.advance d w))
    by (intros d w; unfold Sim.advance; cbn; lia).
  assert (Hcall : forall A c x (ok : Sim.World -> result A) w,
             Sim.clock w <= Sim.clock (snd (Sim.call c x ok w))).
  { intros A c x ok w. unfold Sim.call.
    destruct (Sim.outcome c x _); cbn [snd]; apply Hadv. }
  assert (Hcall_ : forall c x w,
             Sim.clock w <= Sim.clock (snd (Sim.call_ c x w)))
    by (intros c x w; unfold Sim.call_; cbn [snd]; apply Hadv).
  split; [split|]; unfold clock_order; cbn [Sim.env Now Sleep NewUUID GetPod
    GetPodContainerStates GetPodMetrics CreatePersistentVolumeClaim
    CreateOptimizedPod WaitForPodReady DeletePod]; intros;
    try solve [ cbn; lia | apply Hadv | apply Hcall | apply Hcall_ ].
  destruct (Sim.uuids w); cbn; lia.
Qed.

(** C8.  For every job run to its end, [Details.EndTime] and
    [Details.Duration] are each written once: both are unset when the job
    is registered, nothing writes them before the terminal status is
    written, and the terminal transition writes them right after it, as
    the last two writes of the run.  The duration written is
    [EndTime.Sub(StartTime)] for the job's own start time.  When the clock
    does not run backwards the end time is not before the start time (of
    the job, and of its details, which is read next), and unless the
    difference exceeds the largest [Duration] the duration is exactly
    [EndTime - StartTime]. *)
Theorem C8_end_time_and_duration {W : Type} (E : Env W)
    (clk : W -> time_Time) (HM : MonotoneClock E clk)
    (req : MigrationRequest) (mc : MigrationController) (w w2 : W) :
  clk (snd (StartMigration E req mc w)) <= clk w2 ->
  let '(_, l, mc1, _) := StartMigration E req mc w in
  let '(mc2, _, tr) := runJob E l mc1 w2 in
  exists j0 j s t pre,
    let d := time_Sub t (JobStartTime j) in
    heap mc1 !! l = Some j0 /\
    EndTime (Details j0) = None /\ Duration (Details j0) = None /\
    heap mc2 !! l = Some j /\ JobStartTime j = JobStartTime j0 /\
    tr = pre ++ [EvStatus s; EvEndTime t; EvDuration d] /\
    is_terminal s = true /\ Status j = s /\
    endTimes pre = [] /\ durations pre = [] /\
    endTimes tr = [t] /\ durations tr = [d] /\
    EndTime (Details j) = Some t /\ Duration (Details j) = Some d /\
    JobStartTime j <= StartTime (Details j) <= t /\
    (t - JobStartTime j <= maxDuration -> d = t - JobStartTime j).
Proof.
  intros Hw2.
  pose proof (StartMigration_job E req mc w) as HS.
  pose proof (StartMigration_clock E clk HM req mc w) as HC.
  destruct (StartMigration E req mc w) as [[[r l] mc1] w1].
  cbn [snd] in Hw2.
  destruct HS as (_ & Hl & j0 & Hheap & _ & _ & _ & _ & _ & _ & _ & _ & He & Hd).
  assert (Hj0 : heap mc1 !! l = Some j0).
  { rewrite Hheap, Hl. apply list_lookup_middle. reflexivity. }
  specialize (HC j0 Hj0).
  pose proof (runJob_run E l mc1 w2 j0 Hj0) as HR. cbv zeta in HR.
  destruct (runJob E l mc1 w2) as [[mc2 w3] tr].
  destruct HR as (Hj & _ & _ & Htr).
  destruct HM as [HK HN].
  destruct (runPipeline_run E (clock_order clk) HK w2 j0
              (metrics mc1) (checkpointSize mc1))
    as (log & s & t & Hlog & Htr' & Hst & Het & Hdt & Hjs & Hts & _ & _ &
        w' & Ht & Hw').
  destruct (run_trace_reading _ _ _ t (time_Sub t (JobStartTime j0)) Hlog)
    as (_ & Hes & Hds & _).
  destruct (pipeline_log_reading _ _ _ Hlog)
    as (Hls & Hle & Hld & Hterm & _).
  assert (Hle_t : JobStartTime j0 <= StartTime (Details j0) <= t).
  { unfold clock_order in Hw'. pose proof (HN w'). subst t. lia. }
  exists j0, (job (runPipeline E w2 j0 (metrics mc1) (checkpointSize mc1))),
         s, t, (EvStatus MigrationStatusRunning :: log).
  cbv zeta. rewrite Hjs, Hts, Htr, Htr'.
  repeat match goal with |- _ /\ _ => split end;
    try assumption; try reflexivity; try lia.
  intros Hfit. unfold time_Sub, maxDuration, minDuration in *.
    destruct (Z.ltb_spec Int64.max_int (t - JobStartTime j0)); [lia|].
    destruct (Z.ltb_spec (t - JobStartTime j0) Int64.min_int); [|reflexivity].
    unfold Int64.min_int in *. lia.
Qed.

(** C8, on the simulated cluster: the job of a request with the default
    timeout, run in the world its submission ends in. *)
Lemma C8_end_time_and_duration_witness :
  let req := Sim.request true 0 in
  let w1 := snd (StartMigration Sim.env req NewMigrationController Sim.healthy) in
  Sim.clock w1 <= Sim.clock w1 /\
  let '(_, l, mc1, _) :=
    StartMigration Sim.env req NewMigrationController Sim.healthy in
  let '(mc2, _, tr) := runJob Sim.env l mc1 w1 in
  exists j0 j s t pre,
    let d := time_Sub t (JobStartTime j) in
    heap mc1 !! l = Some j0 /\
    EndTime (Details j0) = None /\ Duration (Details j0) = None /\
    heap mc2 !! l = Some j /\ JobStartTime j = JobStartTime j0 /\
    tr = pre ++ [EvStatus s; EvEndTime t; EvDuration d] /\
    is_terminal s = true /\ Status j = s /\
    endTimes pre = [] /\ durations pre = [] /\
    endTimes tr = [t] /\ durations tr = [d] /\
    EndTime (Details j) = Some t /\ Duration (Details j) = Some d /\
    JobStartTime j <= StartTime (Details j) <= t /\
    (t - JobStartTime j <= maxDuration -> d = t - JobStartTime j).
Proof.
  cbv zeta. split; [apply Z.le_refl|].
  exact (C8_end_time_and_duration Sim.env Sim.clock Sim_clock_monotone
           (Sim.request true 0) NewMigrationController Sim.healthy
           (snd (StartMigration Sim.env (Sim.request true 0)
                   NewMigrationController Sim.healthy))
           (Z.le_refl _)).
Defined.

(** ** The counters *)

(** C5 (amended).  Each run changes the counters once, at its terminal
    transition.  A job that ends [completed] adds one to TotalMigrations
    and to SuccessfulMigrations and leaves FailedMigrations; a job that
    ends [failed] adds one to FailedMigrations and leaves TotalMigrations
    and SuccessfulMigrations.  (The counters are int64; the statement is
    for counters below the largest value.) *)
Theorem C5_counters_once_per_job {W : Type} (E : Env W)
    (w : W) (j : MigrationJob) (m : MigrationMetrics) (size : string) :
  Int64.min_int <= TotalMigrations m < Int64.max_int ->
  Int64.min_int <= SuccessfulMigrations m < Int64.max_int ->
  Int64.min_int <= FailedMigrations m < Int64.max_int ->
  let st' := runPipeline E w j m size in
  let m' := mc_metrics st' in
  match Status (job st') with
  | MigrationStatusCompleted =>
      TotalMigrations m' = TotalMigrations m + 1 /\
      SuccessfulMigrations m' = SuccessfulMigrations m + 1 /\
      FailedMigrations m' = FailedMigrations m
  | MigrationStatusFailed =>
      FailedMigrations m' = FailedMigrations m + 1 /\
      TotalMigrations m' = TotalMigrations m /\
      SuccessfulMigrations m' = SuccessfulMigrations m
  | _ => False
  end.
Proof.
  intros Ht Hs Hf. cbv zeta.
  destruct (runPipeline_run E any_world (any_world_kept E) w j m size)
    as (log & s & t & Hlog & _ & Hst & _ & _ & _ & _ & _ & Hc & _).
  destruct (pipeline_log_reading _ _ _ Hlog) as (_ & _ & _ & Hterm & _).
  rewrite Hst. destruct s; try discriminate Hterm; cbn in Hc.
  - destruct Hc as (H1 & H2 & H3 & _).
    rewrite H1, H2, H3, !Int64_incr_small by assumption. auto.
  - destruct Hc as (H1 & H2 & H3 & _).
    rewrite H1, H2, H3, !Int64_incr_small by assumption. auto.
Qed.

(** C5, on the simulated cluster: the cluster refuses to create the
    optimized pod, the job fails, and of the three counters, all zero
    before, only FailedMigrations moves. *)
Lemma C5_counters_once_per_job_witness :
  let bad c := match c with Sim.CCreateOptimizedPod => true | _ => false end in
  let st' := runPipeline Sim.env (Sim.rejecting bad)
               (Sim.pending (Sim.request false 0)) zeroMetrics "1Gi" in
  (Int64.min_int <= 0 < Int64.max_int) /\
  Status (job st') = MigrationStatusFailed /\
  match Status (job st') with
  | MigrationStatusCompleted =>
      TotalMigrations (mc_metrics st') = 0 + 1 /\
      SuccessfulMigrations (mc_metrics st') = 0 + 1 /\
      FailedMigrations (mc_metrics st') = 0
  | MigrationStatusFailed =>
      FailedMigrations (mc_metrics st') = 0 + 1 /\
      TotalMigrations (mc_metrics st') = 0 /\
      SuccessfulMigrations (mc_metrics st') = 0
  | _ => False
  end.
Proof.
  cbv zeta.
  assert (Hr : Int64.min_int <= 0 < Int64.max_int) by (vm_compute; split; congruence).
  split; [exact Hr|]. split; [vm_compute; reflexivity|].
  exact (C5_counters_once_per_job Sim.env
           (Sim.rejecting
              (fun c => match c with Sim.CCreateOptimizedPod => true | _ => false end))
           (Sim.pending (Sim.request false 0)) zeroMetrics "1Gi" Hr Hr Hr).
Defined.

(** C5 as stated fails: a job that ends [failed] does not add to
    TotalMigrations.  On the simulated cluster that refuses to create the
    optimized pod, the job of a fresh controller fails, FailedMigrations
    becomes 1 and TotalMigrations stays 0. *)
Lemma C5_failed_job_leaves_total :
  let bad c := match c with Sim.CCreateOptimizedPod => true | _ => false end in
  let '(mc, _, _) :=
    Sim.submit_and_run (Sim.request false 0) (Sim.rejecting bad) in
  Status <$> heap mc !! 0%nat = Some MigrationStatusFailed /\
  FailedMigrations (metrics mc) = 1 /\
  TotalMigrations (metrics mc) = 0 /\
  TotalMigrations (metrics mc) <>
    TotalMigrations (metrics NewMigrationController) + 1.
Proof.
  vm_compute. repeat split; discriminate.
Qed.

(** The metrics after a sequence of terminal transitions. *)
Lemma replay_total_successful {W : Type} (E : Env W) (ts : list (Terminal W)) :
  forall m,
    TotalMigrations m = SuccessfulMigrations m ->
    TotalMigrations (replay E ts m) = SuccessfulMigrations (replay E ts m).
Proof.
  induction ts as [|[message w j|w j] ts IH]; intros m Hm; cbn [replay].
  - exact Hm.
  - apply IH.
    destruct (failMigration_spec E message (mkSt w j m "1Gi" []))
      as (_ & _ & Hc & _).
    unfold counted in Hc. cbn [mc_metrics] in Hc. destruct Hc as (H1 & H2 & _). congruence.
  - apply IH.
    destruct (completeMigration_spec E (mkSt w j m "1Gi" []))
      as (_ & _ & Hc & _).
    unfold counted in Hc. cbn [mc_metrics] in Hc. destruct Hc as (H1 & H2 & _). congruence.
Qed.

Lemma replay_average_completed {W : Type} (E : Env W) (ts : list (Terminal W)) :
  forall m m',
    TotalMigrations m = TotalMigrations m' ->
    AverageDuration m = AverageDuration m' ->
    TotalMigrations (replay E ts m) =
      TotalMigrations (replay E (List.filter is_completed ts) m') /\
    AverageDuration (replay E ts m) =
      AverageDuration (replay E (List.filter is_completed ts) m').
Proof.
  induction ts as [|[message w j|w j] ts IH]; intros m m' Ht Ha;
    cbn [replay List.filter is_completed].
  - split; assumption.
  - destruct (failMigration_spec E message (mkSt w j m "1Gi" []))
      as (_ & _ & Hc & _).
    unfold counted in Hc. cbn [mc_metrics] in Hc. destruct Hc as (H1 & _ & _ & H4 & _).
    apply IH; congruence.
  - destruct (completeMigration_spec E (mkSt w j m "1Gi" []))
      as (_ & _ & Hc & _).
    destruct (completeMigration_spec E (mkSt w j m' "1Gi" []))
      as (_ & _ & Hc' & _).
    unfold counted in Hc, Hc'. cbn [mc_metrics job JobStartTime world] in Hc, Hc'.
    destruct Hc as (H1 & _ & _ & H4). destruct Hc' as (H1' & _ & _ & H4').
    apply IH; congruence.
Qed.

(** C9.  After any sequence of terminal transitions of a fresh controller,
    TotalMigrations equals SuccessfulMigrations: the failed transition
    adds to FailedMigrations alone and leaves TotalMigrations and the
    average, the completed transition adds to both TotalMigrations and
    SuccessfulMigrations and updates the average with the new
    TotalMigrations as divisor.  So the running average is the one the
    completed jobs alone produce. *)
Theorem C9_total_is_successful {W : Type} (E : Env W)
    (ts : list (Terminal W)) :
  let m := replay E ts zeroMetrics in
  TotalMigrations m = SuccessfulMigrations m /\
  AverageDuration m =
    AverageDuration (replay E (List.filter is_completed ts) zeroMetrics) /\
  (forall message w j m0,
     let m1 := mc_metrics (snd (failMigration E message (mkSt w j m0 "1Gi" []))) in
     TotalMigrations m1 = TotalMigrations m0 /\
     SuccessfulMigrations m1 = SuccessfulMigrations m0 /\
     FailedMigrations m1 = Int64.incr (FailedMigrations m0) /\
     AverageDuration m1 = AverageDuration m0) /\
  (forall w j m0,
     let m1 := mc_metrics (snd (completeMigration E (mkSt w j m0 "1Gi" []))) in
     let d := time_Sub (fst (Now E w)) (JobStartTime j) in
     TotalMigrations m1 = Int64.incr (TotalMigrations m0) /\
     SuccessfulMigrations m1 = Int64.incr (SuccessfulMigrations m0) /\
     FailedMigrations m1 = FailedMigrations m0 /\
     AverageDuration m1 =
       if 0 <? TotalMigrations m1 then
         Int64.div
           (Int64.add
              (Int64.mul (AverageDuration m0) (Int64.sub (TotalMigrations m1) 1))
              d)
           (TotalMigrations m1)
       else AverageDuration m0).
Proof.
  cbv zeta. split; [|split; [|split]].
  - apply replay_total_successful. reflexivity.
  - apply replay_average_completed; reflexivity.
  - intros message w j m0.
    destruct (failMigration_spec E message (mkSt w j m0 "1Gi" []))
      as (_ & _ & Hc & _).
    unfold counted in Hc. cbn [mc_metrics] in Hc. tauto.
  - intros w j m0.
    destruct (completeMigration_spec E (mkSt w j m0 "1Gi" []))
      as (_ & _ & Hc & _).
    unfold counted in Hc. cbn [mc_metrics] in Hc. destruct Hc as (H1 & H2 & H3 & H4).
    rewrite H1. unfold updateAverage in H4. tauto.
Qed.

(** ** The registry *)

(** C6 (amended).  [StartMigration] returns no error and checks for no
    conflict: it allocates the new job, [pending], and stores it in the
    map under its identifier, whatever the map held there.  Entries under
    other identifiers and the job objects already allocated are left as
    they were. *)
Theorem C6_registration_is_unconditional {W : Type} (E : Env W)
    (req : MigrationRequest) (mc : MigrationController) (w : W) :
  let '(r, l, mc1, _) := StartMigration E req mc w in
  let id := MigrationID (fst r) in
  snd r = None /\
  l = length (heap mc) /\
  migrations mc1 !! id = Some l /\
  (exists j, heap mc1 !! l = Some j /\ ID j = id /\ Request j = req /\
             Status j = MigrationStatusPending) /\
  (forall id', id' <> id -> migrations mc1 !! id' = migrations mc !! id') /\
  (forall l', (l' < length (heap mc))%nat -> heap mc1 !! l' = heap mc !! l').
Proof.
  pose proof (StartMigration_job E req mc w) as HS.
  destruct (StartMigration E req mc w) as [[[r l] mc1] w1].
  destruct HS as (He & Hl & j & Hheap & Hmig & _ & _ & Hid & _ & _ & Hp & Hr & _).
  cbv zeta. rewrite Hid, Hmig, Hheap.
  split; [exact He|]. split; [exact Hl|].
  split; [apply lookup_insert_eq|].
  split.
  { exists j. split; [|auto]. rewrite Hl. apply list_lookup_middle. reflexivity. }
  split.
  - intros id' Hne. apply lookup_insert_ne. congruence.
  - intros l' Hlt. apply lookup_app_l. exact Hlt.
Qed.

(** C6 as stated fails: registering a job whose identifier is in the
    registry returns no error and replaces the entry.  On the simulated
    cluster the generator hands out two UUIDs with the same first eight
    characters; the second submission gets the identifier of the first,
    succeeds, and the map then leads to the second job. *)
Lemma C6_duplicate_id_overwrites :
  let '(r1, l1, mc1, w1) :=
    StartMigration Sim.env (Sim.request false 0) NewMigrationController
                   Sim.healthy in
  let '(r2, l2, mc2, _) :=
    StartMigration Sim.env (Sim.request true 20) mc1 w1 in
  MigrationID (fst r2) = MigrationID (fst r1) /\
  migrations mc1 !! MigrationID (fst r2) = Some l1 /\
  snd r2 = None /\
  migrations mc2 !! MigrationID (fst r1) = Some l2 /\
  l2 <> l1 /\
  Request <$> heap mc2 !! l2 = Some (Sim.request true 20) /\
  Request <$> heap mc1 !! l1 = Some (Sim.request false 0).
Proof.
  vm_compute. repeat split; discriminate.
Qed.

(** ** Checks of the simulated cluster *)

(** [Sim.pending] is the job [StartMigration] registers. *)
Example Sim_pending_registered :
  let '(_, l, mc, _) :=
    StartMigration Sim.env (Sim.request false 0) NewMigrationController
                   Sim.healthy in
  heap mc !! l = Some (Sim.pending (Sim.request false 0)).
Proof. vm_compute. reflexivity. Qed.

(** A request with the default timeout on the healthy cluster: the job
    completes, with a checkpoint and a new pod, and is counted once. *)
Example Sim_end_to_end :
  let '(mc, _, _) := Sim.submit_and_run (Sim.request true 0) Sim.healthy in
  (Status <$> heap mc !! 0%nat) = Some MigrationStatusCompleted /\
  (CheckpointPath <$> (Details <$> heap mc !! 0%nat)) = Some "checkpoint-p1-0" /\
  (NewPodName <$> (Details <$> heap mc !! 0%nat)) = Some "p1-migrated-0" /\
  SuccessfulMigrations (metrics mc) = 1 /\
  CPUSavings (metrics mc) = 50%float /\
  MemorySavings (metrics mc) = 40%float.
Proof. vm_compute. repeat split; reflexivity. Qed.

(** * Further properties *)

(** ** What a run never changes *)

Section Identity.

Context {W : Type} (E : Env W).

Lemma same_identity_refl (st : St W) : same_identity st st.
Proof. unfold same_identity. tauto. Qed.

Lemma same_identity_trans (a b c : St W) :
  same_identity a b -> same_identity b c -> same_identity a c.
Proof. unfold same_identity. intuition congruence. Qed.

Lemma identity_liftW {A} (f : W -> A * W) : keeps same_identity (liftW f).
Proof.
  intros st. unfold liftW. destruct (f (world st)).
  unfold same_identity. cbn. tauto.
Qed.

Lemma identity_modifyDetails f :
  (forall d, StartTime (f d) = StartTime d) ->
  keeps same_identity (@modifyDetails W f).
Proof.
  intros Hf st. unfold modifyDetails, modifyJob, same_identity. cbn.
  rewrite Hf. tauto.
Qed.

Lemma identity_set_Status s : keeps same_identity (@modifyJob W (set_Status s)).
Proof. intros st. unfold modifyJob, same_identity. cbn. tauto. Qed.

Lemma identity_emit e : keeps same_identity (@emit W e).
Proof. intros st. unfold emit, same_identity. cbn. tauto. Qed.

Lemma identity_putMetrics m : keeps same_identity (@putMetrics W m).
Proof. intros st. unfold putMetrics, same_identity. cbn. tauto. Qed.

Ltac identity_tac :=
  repeat first
    [ apply keeps_bind; [ exact same_identity_trans | | intros ]
    | apply keeps_ret; exact same_identity_refl
    | apply keeps_getJob; exact same_identity_refl
    | apply keeps_getMetrics; exact same_identity_refl
    | apply keeps_getCheckpointSize; exact same_identity_refl
    | apply identity_liftW
    | apply identity_emit
    | apply identity_putMetrics
    | apply identity_set_Status
    | apply identity_modifyDetails; intros; reflexivity
    | match goal with
      | |- keeps _ (match ?x with _ => _ end) => destruct x
      end ].

Lemma executeMigration_identity : keeps same_identity (executeMigration E).
Proof.
  unfold executeMigration, updateJobStatus, failMigration, completeMigration,
    captureContainerStates, createCheckpoint, createOptimizedPod,
    deleteOriginalPod, collectPostMigrationMetrics, simulate, now.
  cbv zeta. identity_tac.
Qed.

End Identity.

(** X6.  A run never changes what identifies its job: the identifier, the
    request, the deadline of its context, and the start times of the job
    and of its details are after the run what they were before it,
    whatever the collaborators do.  (The cancel that [executeMigration]
    defers ends the context when the run is over; it does not move the
    deadline.) *)
Theorem X6_run_keeps_identity {W : Type} (E : Env W)
    (w : W) (j : MigrationJob) (m : MigrationMetrics) (size : string) :
  let j' := job (runPipeline E w j m size) in
  ID j' = ID j /\
  Request j' = Request j /\
  deadline (ctx j') = deadline (ctx j) /\
  JobStartTime j' = JobStartTime j /\
  StartTime (Details j') = StartTime (Details j).
Proof.
  destruct (executeMigration_identity E (mkSt w j m size []))
    as (Hi & Hr & Hc & Hs & Hd).
  cbv zeta. unfold runPipeline. cbn [job] in *.
  rewrite Hi, Hr, Hc, Hs, Hd. repeat split; reflexivity.
Qed.

(** ** The registry over submissions and runs *)

Section RegistryProperties.

Context {W : Type} (E : Env W).

Lemma registry_ok_new : registry_ok NewMigrationController.
Proof. intros id l H. cbn in H. rewrite lookup_empty in H. discriminate. Qed.

Lemma registry_ok_start req mc w :
  registry_ok mc -> registry_ok (snd (fst (StartMigration E req mc w))).
Proof.
  intros Hok.
  pose proof (StartMigration_job E req mc w) as HS.
  destruct (StartMigration E req mc w) as [[[r l] mc1] w1].
  destruct HS as (_ & Hl & j & Hheap & Hmig & _).
  cbn [fst snd]. intros id l0 Hid. rewrite Hmig in Hid. rewrite Hheap.
  destruct (decide (ID j = id)) as [<-|Hne].
  - rewrite lookup_insert_eq in Hid. injection Hid as <-.
    exists j. split; [|reflexivity]. rewrite Hl.
    apply list_lookup_middle. reflexivity.
  - rewrite lookup_insert_ne in Hid by exact Hne.
    destruct (Hok id l0 Hid) as (j0 & Hj0 & Hidj0).
    exists j0. split; [|exact Hidj0].
    apply lookup_app_l_Some. exact Hj0.
Qed.

Lemma registry_ok_run l mc w :
  registry_ok mc -> registry_ok (fst (fst (runJob E l mc w))).
Proof.
  intros Hok. unfold runJob.
  destruct (heap mc !! l) as [j|] eqn:Hj; cbn [fst snd]; [|exact Hok].
  intros id l0 Hid. cbn [migrations heap] in *.
  destruct (Hok id l0 Hid) as (j0 & Hj0 & Hidj0).
  destruct (decide (l0 = l)) as [->|Hne].
  - eexists. split.
    + apply list_lookup_insert_eq. eapply lookup_lt_Some. exact Hj.
    + rewrite Hj in Hj0. injection Hj0 as ->.
      destruct (executeMigration_identity E
                  (mkSt w j0 (metrics mc) (checkpointSize mc) []))
        as (Hid' & _).
      cbn [job] in Hid'. congruence.
  - exists j0. split; [|exact Hidj0].
    rewrite list_lookup_insert_ne by congruence. exact Hj0.
Qed.

Lemma reachable_ok mc : reachable E mc -> registry_ok mc.
Proof.
  induction 1.
  - apply registry_ok_new.
  - apply registry_ok_start. assumption.
  - apply registry_ok_run. assumption.
Qed.

End RegistryProperties.

(** X3.  On every controller that submissions and runs produce from a new
    one, each identifier of the map leads to an allocated job carrying
    that identifier.  So [GetMigrationStatus] fails only for an identifier
    that is not in the map, with the error "migration <id> not found", and
    otherwise answers with the identifier asked for and the message of the
    status it reports. *)
Theorem X3_status_lookup_total {W : Type} (E : Env W)
    (mc : MigrationController) :
  reachable E mc ->
  registry_ok mc /\
  forall id,
    match GetMigrationStatus id mc with
    | Ok r =>
        is_Some (migrations mc !! id) /\
        MigrationID r = id /\
        Message r = getStatusMessage (RespStatus r)
    | Err e =>
        migrations mc !! id = None /\
        e = String.append "migration " (String.append id " not found")
    end.
Proof.
  intros Hr. pose proof (reachable_ok E mc Hr) as Hok.
  split; [exact Hok|]. intros id. unfold GetMigrationStatus.
  destruct (migrations mc !! id) as [l|] eqn:Hid.
  - destruct (Hok id l Hid) as (j & Hj & Hidj). rewrite Hj. cbn.
    split; [eexists; reflexivity|]. split; [exact Hidj|reflexivity].
  - split; reflexivity.
Qed.

(** X3, on the simulated cluster: the controller after one submission and
    the run of its job. *)
Lemma X3_status_lookup_total_witness :
  let mc := fst (fst (Sim.submit_and_run (Sim.request true 0) Sim.healthy)) in
  reachable Sim.env mc /\
  registry_ok mc /\
  forall id,
    match GetMigrationStatus id mc with
    | Ok r =>
        is_Some (migrations mc !! id) /\
        MigrationID r = id /\
        Message r = getStatusMessage (RespStatus r)
    | Err e =>
        migrations mc !! id = None /\
        e = String.append "migration " (String.append id " not found")
    end.
Proof.
  cbv zeta.
  assert (Hr : reachable Sim.env
                 (fst (fst (Sim.submit_and_run (Sim.request true 0)
                              Sim.healthy)))).
  { unfold Sim.submit_and_run.
    pose proof (reach_start Sim.env (Sim.request true 0)
                  NewMigrationController Sim.healthy (reach_new Sim.env))
      as H1.
    destruct (StartMigration Sim.env (Sim.request true 0)
                NewMigrationController Sim.healthy) as [[[r l] mc1] w1].
    cbn [fst snd] in H1. exact (reach_run Sim.env l mc1 w1 H1). }
  split; [exact Hr|].
  exact (X3_status_lookup_total Sim.env _ Hr).
Defined.

(** ** The status a reader finds *)

Section StatusFound.

Context {W : Type} (E : Env W).





End StatusFound.


(** X2.  As long as the map leads from the identifier of a job to that
    job, the job is found in a terminal state once its run is over:
    [GetMigrationStatus] on its identifier reports [completed] with the
    message "Migration completed successfully" or [failed] with the
    message "Migration failed", and points at the job, which then carries
    that status, an end time and a duration.  (A later submission that
    draws the same identifier takes the entry of the map over; the status
    reported for the identifier is then that of the later job.) *)
Theorem X2_status_after_run {W : Type} (E : Env W)
    (mc : MigrationController) (l : loc) (j : MigrationJob) (w : W) :
  heap mc !! l = Some j ->
  migrations mc !! ID j = Some l ->
  let '(mc2, _, _) := runJob E l mc w in
  exists s j',
    GetMigrationStatus (ID j) mc2 =
      Ok {| MigrationID := ID j; RespStatus := s;
            Message := getStatusMessage s; RespDetails := l |} /\
    (s = MigrationStatusCompleted /\
     getStatusMessage s = "Migration completed successfully"%string \/
     s = MigrationStatusFailed /\
     getStatusMessage s = "Migration failed"%string) /\
    heap mc2 !! l = Some j' /\
    Status j' = s /\
    is_Some (EndTime (Details j')) /\
    is_Some (Duration (Details j')).
Proof.
  intros Hj0 Hmap.
  pose proof (runJob_run E l mc w j Hj0) as HR. cbv zeta in HR.
  destruct (runJob E l mc w) as [[mc2 w3] tr].
  destruct HR as (Hj & _ & Hm2 & _).
  destruct (runPipeline_run E any_world (any_world_kept E) w j
              (metrics mc) (checkpointSize mc))
    as (log & s & t & Hlog & _ & Hst & Het & Hdt & _).
  destruct (pipeline_log_reading _ _ _ Hlog) as (_ & _ & _ & Hterm & _).
  destruct (executeMigration_identity E
              (mkSt w j (metrics mc) (checkpointSize mc) []))
    as (Hid' & _).
  cbn [job] in Hid'.
  fold (runPipeline E w j (metrics mc) (checkpointSize mc)) in Hid'.
  exists s. eexists.
  split.
  { unfold GetMigrationStatus. rewrite Hm2, Hmap, Hj, Hid', Hst.
    reflexivity. }
  split.
  { destruct s; try discriminate Hterm; [left|right]; split; reflexivity. }
  split; [exact Hj|]. split; [exact Hst|].
  rewrite Het, Hdt. split; eexists; reflexivity.
Qed.

(** X2, on the simulated cluster: the job of the first submission to a new
    controller, run on the healthy cluster. *)
Lemma X2_status_after_run_witness :
  let mc := snd (fst (StartMigration Sim.env (Sim.request false 0)
                        NewMigrationController Sim.healthy)) in
  let j := Sim.pending (Sim.request false 0) in
  heap mc !! 0%nat = Some j /\
  migrations mc !! ID j = Some 0%nat /\
  let '(mc2, _, _) := runJob Sim.env 0%nat mc Sim.healthy in
  exists s j',
    GetMigrationStatus (ID j) mc2 =
      Ok {| MigrationID := ID j; RespStatus := s;
            Message := getStatusMessage s; RespDetails := 0%nat |} /\
    (s = MigrationStatusCompleted /\
     getStatusMessage s = "Migration completed successfully"%string \/
     s = MigrationStatusFailed /\
     getStatusMessage s = "Migration failed"%string) /\
    heap mc2 !! 0%nat = Some j' /\
    Status j' = s /\
    is_Some (EndTime (Details j')) /\
    is_Some (Duration (Details j')).
Proof.
  intros mc j.
  assert (Hj : heap mc !! 0%nat = Some j) by (vm_compute; reflexivity).
  assert (Hm : migrations mc !! ID j = Some 0%nat) by (vm_compute; reflexivity).
  split; [exact Hj|]. split; [exact Hm|].
  exact (X2_status_after_run Sim.env mc 0%nat j Sim.healthy Hj Hm).
Defined.

(** X5.  The deadline of a job is counted from a clock reading [t] taken
    during the submission, not before the submission begins and not after
    the job's start time.  A timeout of 0 means ten minutes; any other
    timeout is taken as a number of seconds, in 64-bit nanoseconds.  For a
    timeout of up to 9223372036 seconds the deadline is that many seconds
    after [t]; a negative timeout is not refused, and its job starts with
    the deadline already behind it. *)
Theorem X5_deadline_of_submission {W : Type} (E : Env W)
    (clk : W -> time_Time) (HM : MonotoneClock E clk)
    (req : MigrationRequest) (mc : MigrationController) (w : W) :
  let '(_, l, mc1, _) := StartMigration E req mc w in
  forall j, heap mc1 !! l = Some j ->
  exists t,
    clk w <= t <= JobStartTime j /\
    deadline (ctx j) =
      t + (if Timeout req =? 0 then 10 * time_Minute
           else Int64.mul (Timeout req) time_Second) /\
    (Timeout req = 0 -> deadline (ctx j) = t + 600000000000) /\
    (0 < Timeout req <= 9223372036 ->
     deadline (ctx j) = t + Timeout req * 1000000000) /\
    (-9223372036 <= Timeout req < 0 -> deadline (ctx j) < JobStartTime j).
Proof.
  destruct HM as [HK HN].
  unfold StartMigration, context_WithTimeout.
  pose proof (env_NewUUID _ _ HK w) as Hu. unfold clock_order in Hu.
  destruct (NewUUID E w) as [u w0]. cbn [snd] in Hu.
  pose proof (HN w0) as H0.
  destruct (Now E w0) as [t0 w1]. cbn [fst snd] in H0.
  destruct (Z.eqb_spec (Timeout req) 0) as [Hz|Hz].
  - pose proof (HN w1) as H1.
    destruct (Now E w1) as [t0' w1']. cbn [fst snd] in H1.
    pose proof (HN w1') as H2.
    destruct (Now E w1') as [t1 w2]. cbn [fst snd] in H2.
    destruct (Now E w2) as [t2 w3].
    cbn. intros j Hj. rewrite list_lookup_middle in Hj by reflexivity.
    injection Hj as <-. cbn. exists t0'.
    unfold time_Add, time_Minute, time_Second.
    repeat split; try lia.
  - pose proof (HN w1) as H1.
    destruct (Now E w1) as [t1 w2]. cbn [fst snd] in H1.
    destruct (Now E w2) as [t2 w3].
    cbn. intros j Hj. rewrite list_lookup_middle in Hj by reflexivity.
    injection Hj as <-. cbn. exists t0.
    unfold time_Add, time_Second, Int64.mul.
    split; [lia|]. split; [reflexivity|]. split; [lia|]. split.
    + intros Hr. rewrite Int64_wrap_small; [reflexivity|].
      unfold Int64.in_range, Int64.min_int, Int64.max_int. lia.
    + intros Hr. rewrite Int64_wrap_small; [lia|].
      unfold Int64.in_range, Int64.min_int, Int64.max_int. lia.
Qed.

(** X5, on the simulated cluster: a request with the default timeout,
    submitted at time 0, gets a deadline of ten minutes. *)
Lemma X5_deadline_of_submission_witness :
  MonotoneClock Sim.env Sim.clock /\
  let '(_, l, mc1, _) :=
    StartMigration Sim.env (Sim.request true 0) NewMigrationController
                   Sim.healthy in
  forall j, heap mc1 !! l = Some j ->
  exists t,
    Sim.clock Sim.healthy <= t <= JobStartTime j /\
    deadline (ctx j) =
      t + (if Timeout (Sim.request true 0) =? 0 then 10 * time_Minute
           else Int64.mul (Timeout (Sim.request true 0)) time_Second) /\
    (Timeout (Sim.request true 0) = 0 -> deadline (ctx j) = t + 600000000000) /\
    (0 < Timeout (Sim.request true 0) <= 9223372036 ->
     deadline (ctx j) = t + Timeout (Sim.request true 0) * 1000000000) /\
    (-9223372036 <= Timeout (Sim.request true 0) < 0 ->
     deadline (ctx j) < JobStartTime j).
Proof.
  split; [exact Sim_clock_monotone|].
  exact (X5_deadline_of_submission Sim.env Sim.clock Sim_clock_monotone
           (Sim.request true 0) NewMigrationController Sim.healthy).
Defined.

(** ** What the steps record *)

Section StepRecords.

Context {W : Type} (E : Env W).

(** Name the outcome of the next call into the environment. *)
Ltac call_env :=
  match goal with
  | |- context [GetPod E ?a ?b ?c ?d] =>
      destruct (GetPod E a b c d) as [[?|?] ?]
  | |- context [GetPodContainerStates E ?a ?b ?c] =>
      destruct (GetPodContainerStates E a b c) as [[?|?] ?]
  | |- context [GetPodMetrics E ?a ?b ?c ?d] =>
      destruct (GetPodMetrics E a b c d) as [[?|?] ?]
  | |- context [CreatePersistentVolumeClaim E ?a ?b ?c ?d ?e] =>
      destruct (CreatePersistentVolumeClaim E a b c d e) as [[?|] ?]
  | |- context [CreateOptimizedPod E ?a ?b ?c ?d ?e ?f] =>
      destruct (CreateOptimizedPod E a b c d e f) as [[?|?] ?]
  | |- context [WaitForPodReady E ?a ?b ?c ?d ?e] =>
      destruct (WaitForPodReady E a b c d e) as [[?|] ?]
  | |- context [DeletePod E ?a ?b ?c ?d] =>
      destruct (DeletePod E a b c d) as [[?|] ?]
  | |- context [Now E ?a] =>
      destruct (Now E a) as [? ?]
  end.

Ltac run_calls :=
  cbv [captureContainerStates createCheckpoint createOptimizedPod
       deleteOriginalPod collectPostMigrationMetrics simulate now
       bind liftW getJob getCheckpointSize ret modifyDetails modifyJob
       world job mc_metrics mc_checkpointSize trace fst snd];
  repeat (call_env;
          cbv beta iota zeta
              delta [world job mc_metrics mc_checkpointSize trace fst snd]).

(** Step 1 either fails and leaves the job as it was, or records the
    container states and an original sample. *)
Lemma captureContainerStates_job (st : St W) :
  match fst (captureContainerStates E st) with
  | Some _ => job (snd (captureContainerStates E st)) = job st
  | None =>
      exists cs o,
        job (snd (captureContainerStates E st)) =
          set_Details
            (set_OriginalResources (Some o)
               (set_ContainerStates cs (Details (job st))))
            (job st)
  end.
Proof.
  destruct st as [w j m size tr]. run_calls;
    try reflexivity; eexists _, _; reflexivity.
Qed.

(** Step 2 leaves the job to its caller, and names the claim after the
    pod and the time. *)
Lemma createCheckpoint_job (st : St W) :
  job (snd (createCheckpoint E st)) = job st /\
  match fst (createCheckpoint E st) with
  | Ok name =>
      name = checkpointName (PodName (Request (job st)))
                            (fst (Now E (world st)))
  | Err _ => True
  end.
Proof.
  destruct st as [w j m size tr]. run_calls; split; reflexivity || exact I.
Qed.

(** Step 3 either fails and leaves the job as it was, or records the name
    of the new pod and nothing else. *)
Lemma createOptimizedPod_job (pvc : string) (st : St W) :
  match fst (createOptimizedPod E pvc st) with
  | Some _ => job (snd (createOptimizedPod E pvc st)) = job st
  | None =>
      exists n,
        job (snd (createOptimizedPod E pvc st)) =
          set_Details (set_NewPodName n (Details (job st))) (job st)
  end.
Proof.
  destruct st as [w j m size tr]. run_calls;
    try reflexivity; eexists; reflexivity.
Qed.

Lemma deleteOriginalPod_job (st : St W) :
  job (snd (deleteOriginalPod E st)) = job st.
Proof.
  destruct st as [w j m size tr]. run_calls; reflexivity.
Qed.

(** Step 5 hands back no error; it records an optimized sample, and
    nothing else, whenever there is an original one, and otherwise either
    a measured sample or nothing. *)
Lemma collectPostMigrationMetrics_job (st : St W) :
  fst (collectPostMigrationMetrics E st) = None /\
  (job (snd (collectPostMigrationMetrics E st)) = job st /\
   OriginalResources (Details (job st)) = None \/
   exists p,
     job (snd (collectPostMigrationMetrics E st)) =
       set_Details (set_OptimizedResources (Some p) (Details (job st)))
                   (job st)).
Proof.
  destruct st as [w j m size tr].
  cbv [collectPostMigrationMetrics simulate now
       bind liftW getJob getCheckpointSize ret modifyDetails modifyJob
       world job mc_metrics mc_checkpointSize trace fst snd].
  destruct (negb (String.eqb (NewPodName (Details j)) ""));
    [call_env|];
    cbv beta iota zeta
        delta [world job mc_metrics mc_checkpointSize trace fst snd];
    destruct (OriginalResources (Details j)) eqn:Ho;
    cbv beta iota zeta
        delta [world job mc_metrics mc_checkpointSize trace fst snd];
    try call_env;
    (split; [reflexivity|]);
    first [ right; eexists; reflexivity | left; split; reflexivity ].
Qed.

End StepRecords.

(** ** What a run records *)

Section RunRecords.

Context {W : Type} (E : Env W).

Ltac red_run :=
  cbv beta iota zeta
      delta [world job mc_metrics mc_checkpointSize trace snd fst].

(** Run the next step [f]: [lemJ] says what it records in the job, [lemS]
    what it leaves alone; [PJ] names the former for the caller. *)
Ltac record_step f lemJ lemS e PJ :=
  match goal with
  | |- context [f ?s] =>
      let PS := fresh "PS" in
      pose proof (lemJ s) as PJ;
      pose proof (lemS s) as PS;
      destruct (f s) as [e [? ? ? ? ?]];
      cbv beta iota zeta
          delta [step_rel same_control world job mc_metrics
                 mc_checkpointSize trace snd fst] in PJ, PS;
      destruct PS as (_ & _ & _ & _ & _ & _ & _ & _ & _ & ? & ? & ?);
      subst
  end.

Ltac end_failed :=
  match goal with
  | |- context [failMigration E ?msg ?s] =>
      let F := fresh "F" in
      pose proof (failMigration_spec E msg s) as F;
      destruct (failMigration E msg s) as [[] [? ? ? ? ?]];
      cbv beta iota zeta
          delta [world job mc_metrics mc_checkpointSize trace snd
                 counted] in F;
      destruct F as (_ & ? & (_ & _ & _ & _ & ? & ?) & _ & ?); subst;
      cbn; repeat split; try assumption;
      try (match goal with
           | |- context [PreservePV ?r] => destruct (PreservePV r)
           end;
           [ let Hin := fresh "Hin" in
             intros Hin; exfalso; cbn in Hin; intuition discriminate
           | split; reflexivity ]);
      try (let Hin := fresh "Hin" in
           intros Hin;
           first [ exfalso; cbn in Hin; intuition discriminate
                 | eexists; split; reflexivity ]);
      try (split; reflexivity)
  end.

(** Steps 3 to 5 and the terminal transition, after a captured original
    sample. *)
Ltac run_tail pvc :=
  let e3 := fresh "e3" in
  let e4 := fresh "e4" in
  let e5 := fresh "e5" in
  let P3 := fresh "P3" in
  let P4 := fresh "P4" in
  let P5 := fresh "P5" in
  record_step (createOptimizedPod E pvc) (createOptimizedPod_job E pvc)
    (createOptimizedPod_step E any_world (any_world_kept E) pvc) e3 P3;
  destruct e3 as [?err|]; red_run; [end_failed|];
  destruct P3 as (?n & ->);
  record_step (deleteOriginalPod E) (deleteOriginalPod_job E)
    (deleteOriginalPod_step E any_world (any_world_kept E)) e4 P4;
  red_run;
  record_step (collectPostMigrationMetrics E)
    (collectPostMigrationMetrics_job E)
    (collectPostMigrationMetrics_step E any_world (any_world_kept E)) e5 P5;
  red_run;
  destruct P5 as [-> [[_ Hnone]|(?p & ->)]];
  [ cbn in Hnone; discriminate Hnone | ];
  match goal with
  | |- context [completeMigration E ?s] =>
      let F := fresh "F" in
      let FM := fresh "FM" in
      pose proof (completeMigration_spec E s) as F;
      pose proof (completeMigration_metrics E s) as FM;
      destruct (completeMigration E s) as [[] [? ? ? ? ?]];
      cbv beta iota zeta
          delta [world job mc_metrics mc_checkpointSize trace snd] in F, FM;
      destruct F as (_ & ? & _); subst
  end;
  cbn; eexists _, _;
  split; [reflexivity|]; split; [reflexivity|];
  split; [reflexivity|]; split; [reflexivity|].

Lemma runPipeline_records (w : W) (j : MigrationJob) (m : MigrationMetrics)
    (size : string) :
  let st' := runPipeline E w j m size in
  let d' := Details (job st') in
  match Status (job st') with
  | MigrationStatusCompleted =>
      exists o p,
        OriginalResources d' = Some o /\
        OptimizedResources d' = Some p /\
        CPUSavings (mc_metrics st') = cpuSavings o p /\
        MemorySavings (mc_metrics st') = memorySavings o p /\
        if PreservePV (Request j) then
          exists t,
            CheckpointPath d' = checkpointName (PodName (Request j)) t /\
            PVClaimName d' = checkpointName (PodName (Request j)) t
        else
          CheckpointPath d' = CheckpointPath (Details j) /\
          PVClaimName d' = PVClaimName (Details j)
  | MigrationStatusFailed =>
      OptimizedResources d' = OptimizedResources (Details j) /\
      NewPodName d' = NewPodName (Details j) /\
      CPUSavings (mc_metrics st') = CPUSavings m /\
      MemorySavings (mc_metrics st') = MemorySavings m /\
      if PreservePV (Request j) then
        In (EvReturn StepCheckpoint None) (trace st') ->
        exists t,
          CheckpointPath d' = checkpointName (PodName (Request j)) t /\
          PVClaimName d' = checkpointName (PodName (Request j)) t
      else
        CheckpointPath d' = CheckpointPath (Details j) /\
        PVClaimName d' = PVClaimName (Details j)
  | _ => False
  end.
Proof.
  unfold runPipeline.
  cbv [executeMigration bind updateJobStatus emit modifyJob modifyDetails
       getJob ret world job mc_metrics mc_checkpointSize trace snd].
  record_step (captureContainerStates E) (captureContainerStates_job E)
    (captureContainerStates_step E any_world (any_world_kept E)) e1 P1.
  destruct e1 as [err|]; red_run.
  { end_failed. }
  destruct P1 as (cs & o & ->).
  cbn [Request set_Details set_Status].
  destruct (PreservePV (Request j)) eqn:HP; red_run.
  - record_step (createCheckpoint E) (createCheckpoint_job E)
      (createCheckpoint_step E any_world (any_world_kept E)) r2 P2.
    destruct P2 as [-> Hname].
    destruct r2 as [pvc|err]; red_run; [|end_failed].
    cbn [Request set_Details set_Status PodName] in Hname.
    run_tail pvc.
    eexists. split; reflexivity.
  - run_tail EmptyString. split; reflexivity.
Qed.


End RunRecords.

(** X7.  A job that ends [completed] has both samples: step 1 always
    records an original sample once the pod and its containers are read,
    and step 5 then records a measured or an estimated one.  So the
    completed transition of a run always overwrites both savings, with
    (original - optimized) / original * 100 on these two samples. *)
Theorem X7_completed_run_has_both_samples {W : Type} (E : Env W)
    (w : W) (j : MigrationJob) (m : MigrationMetrics) (size : string) :
  let st' := runPipeline E w j m size in
  Status (job st') = MigrationStatusCompleted ->
  exists o p,
    OriginalResources (Details (job st')) = Some o /\
    OptimizedResources (Details (job st')) = Some p /\
    CPUSavings (mc_metrics st') =
      PrimFloat.mul
        (PrimFloat.div (PrimFloat.sub (CPUUsage o) (CPUUsage p)) (CPUUsage o))
        100%float /\
    MemorySavings (mc_metrics st') =
      PrimFloat.mul
        (PrimFloat.div
           (Float64.of_int64 (Int64.sub (MemoryUsage o) (MemoryUsage p)))
           (Float64.of_int64 (MemoryUsage o)))
        100%float.
Proof.
  cbv zeta. intros Hs.
  pose proof (runPipeline_records E w j m size) as H. cbv zeta in H.
  rewrite Hs in H. destruct H as (o & p & Ho & Hp & Hc & Hm & _).
  exists o, p. repeat split; assumption.
Qed.

(** X7, on the simulated cluster: the healthy run completes with the
    measured original and the estimated optimized sample. *)
Lemma X7_completed_run_has_both_samples_witness :
  let st' := runPipeline Sim.env Sim.healthy
               (Sim.pending (Sim.request true 0)) zeroMetrics "1Gi" in
  Status (job st') = MigrationStatusCompleted /\
  exists o p,
    OriginalResources (Details (job st')) = Some o /\
    OptimizedResources (Details (job st')) = Some p /\
    CPUSavings (mc_metrics st') =
      PrimFloat.mul
        (PrimFloat.div (PrimFloat.sub (CPUUsage o) (CPUUsage p)) (CPUUsage o))
        100%float /\
    MemorySavings (mc_metrics st') =
      PrimFloat.mul
        (PrimFloat.div
           (Float64.of_int64 (Int64.sub (MemoryUsage o) (MemoryUsage p)))
           (Float64.of_int64 (MemoryUsage o)))
        100%float.
Proof.
  cbv zeta.
  assert (Hs : Status (job (runPipeline Sim.env Sim.healthy
                              (Sim.pending (Sim.request true 0))
                              zeroMetrics "1Gi"))
               = MigrationStatusCompleted) by (vm_compute; reflexivity).
  split; [exact Hs|].
  exact (X7_completed_run_has_both_samples Sim.env Sim.healthy
           (Sim.pending (Sim.request true 0)) zeroMetrics "1Gi" Hs).
Defined.

(** X8.  The checkpoint fields follow the request.  Without [PreservePV]
    the checkpoint step is never entered and [CheckpointPath] and
    [PVClaimName] stay what they were, whatever the outcome.  With
    [PreservePV], a job that ends [completed] has both fields set to the
    same name, "checkpoint-<pod name>-<seconds>" for a time read at
    step 2. *)
Theorem X8_checkpoint_fields {W : Type} (E : Env W)
    (w : W) (j : MigrationJob) (m : MigrationMetrics) (size : string) :
  let st' := runPipeline E w j m size in
  let d' := Details (job st') in
  if PreservePV (Request j) then
    Status (job st') = MigrationStatusCompleted ->
    exists t,
      CheckpointPath d' = checkpointName (PodName (Request j)) t /\
      PVClaimName d' = CheckpointPath d'
  else
    ~ In StepCheckpoint (steps (trace st')) /\
    CheckpointPath d' = CheckpointPath (Details j) /\
    PVClaimName d' = PVClaimName (Details j).
Proof.
  cbv zeta.
  pose proof (runPipeline_records E w j m size) as H. cbv zeta in H.
  destruct (runPipeline_run E any_world (any_world_kept E) w j m size)
    as (log & s & t & Hlog & Htr & Hst & _).
  destruct (run_trace_reading _ _ _ t (time_Sub t (JobStartTime j)) Hlog)
    as (_ & _ & _ & Hsteps & _).
  destruct (pipeline_log_reading _ _ _ Hlog)
    as (_ & _ & _ & Hterm & _ & _ & _ & Hp & _).
  rewrite Htr, Hsteps. rewrite Hst in *.
  destruct (PreservePV (Request j)).
  - intros ->. destruct H as (_ & _ & _ & _ & _ & _ & t' & H1 & H2).
    exists t'. split; congruence.
  - split.
    + intros Hin. destruct Hp as [k Hk]. unfold pipeline_steps in Hk.
      assert (Hin' : In StepCheckpoint (steps log ++ k))
        by (apply in_or_app; left; exact Hin).
      rewrite <- Hk in Hin'. cbn in Hin'. intuition discriminate.
    + destruct s; try discriminate Hterm.
      * destruct H as (_ & _ & _ & _ & _ & _ & H1 & H2). split; assumption.
      * destruct H as (_ & _ & _ & _ & H1 & H2). split; assumption.
Qed.

(** X9.  A job that ends [failed] has recorded neither a new pod nor an
    optimized sample, and has not touched the savings: [NewPodName],
    [OptimizedResources], CPUSavings and MemorySavings are what they were
    before the run, also when the new pod was created and only failed to
    become ready. *)
Theorem X9_failed_run_records_no_result {W : Type} (E : Env W)
    (w : W) (j : MigrationJob) (m : MigrationMetrics) (size : string) :
  let st' := runPipeline E w j m size in
  Status (job st') = MigrationStatusFailed ->
  NewPodName (Details (job st')) = NewPodName (Details j) /\
  OptimizedResources (Details (job st')) = OptimizedResources (Details j) /\
  CPUSavings (mc_metrics st') = CPUSavings m /\
  MemorySavings (mc_metrics st') = MemorySavings m.
Proof.
  cbv zeta. intros Hs.
  pose proof (runPipeline_records E w j m size) as H. cbv zeta in H.
  rewrite Hs in H. tauto.
Qed.

(** X9, on the simulated cluster: the new pod is created and does not
    become ready; the job fails and records no pod name. *)
Lemma X9_failed_run_records_no_result_witness :
  let bad c := match c with Sim.CWaitForPodReady => true | _ => false end in
  let st' := runPipeline Sim.env (Sim.rejecting bad)
               (Sim.pending (Sim.request true 0)) zeroMetrics "1Gi" in
  Status (job st') = MigrationStatusFailed /\
  NewPodName (Details (job st')) = EmptyString /\
  OptimizedResources (Details (job st')) = None /\
  CPUSavings (mc_metrics st') = 0%float /\
  MemorySavings (mc_metrics st') = 0%float.
Proof.
  cbv zeta.
  pose (bad := fun c => match c with Sim.CWaitForPodReady => true | _ => false end).
  assert (Hs : Status (job (runPipeline Sim.env (Sim.rejecting bad)
                              (Sim.pending (Sim.request true 0))
                              zeroMetrics "1Gi"))
               = MigrationStatusFailed) by (vm_compute; reflexivity).
  split; [exact Hs|].
  exact (X9_failed_run_records_no_result Sim.env (Sim.rejecting bad)
           (Sim.pending (Sim.request true 0)) zeroMetrics "1Gi" Hs).
Defined.

(** ** The counters and the running average *)

Lemma time_Sub_in_range (t u : time_Time) : Int64.in_range (time_Sub t u).
Proof.
  unfold time_Sub, maxDuration, minDuration, Int64.in_range.
  destruct (Z.ltb_spec Int64.max_int (t - u)).
  - unfold Int64.min_int, Int64.max_int. lia.
  - destruct (Z.ltb_spec (t - u) Int64.min_int).
    + unfold Int64.min_int, Int64.max_int. lia.
    + lia.
Qed.

Lemma filter_lengths {W : Type} (ts : list (Terminal W)) :
  (length (List.filter is_completed ts) + length (List.filter is_failed ts)
   = length ts)%nat.
Proof.
  induction ts as [|[msg w j|w j] ts IH]; cbn; lia.
Qed.

Lemma replay_counts {W : Type} (E : Env W) (ts : list (Terminal W)) :
  forall m,
    0 <= SuccessfulMigrations m ->
    0 <= FailedMigrations m ->
    SuccessfulMigrations m + FailedMigrations m + Z.of_nat (length ts)
      <= Int64.max_int ->
    SuccessfulMigrations (replay E ts m) =
      SuccessfulMigrations m + Z.of_nat (length (List.filter is_completed ts)) /\
    FailedMigrations (replay E ts m) =
      FailedMigrations m + Z.of_nat (length (List.filter is_failed ts)).
Proof.
  induction ts as [|[message w j|w j] ts IH]; intros m Hs Hf Hb;
    cbn [replay List.filter is_completed is_failed negb length] in *.
  - lia.
  - destruct (failMigration_spec E message (mkSt w j m "1Gi" []))
      as (_ & _ & Hc & _).
    unfold counted in Hc. cbn [mc_metrics] in Hc.
    destruct Hc as (_ & H2 & H3 & _).
    rewrite Int64_incr_small in H3 by (unfold Int64.min_int; lia).
    edestruct IH as [IH1 IH2]; [| |rewrite H2, H3; lia|];
      [lia|lia|].
    rewrite IH1, IH2, H2, H3. cbn [length]. lia.
  - destruct (completeMigration_spec E (mkSt w j m "1Gi" []))
      as (_ & _ & Hc & _).
    unfold counted in Hc. cbn [mc_metrics] in Hc.
    destruct Hc as (_ & H2 & H3 & _).
    rewrite Int64_incr_small in H2 by (unfold Int64.min_int; lia).
    edestruct IH as [IH1 IH2]; [| |rewrite H2, H3; lia|];
      [lia|lia|].
    rewrite IH1, IH2, H2, H3. cbn [length]. lia.
Qed.

(** X13.  The counters count.  After any sequence of terminal transitions
    of a fresh controller, shorter than the largest int64,
    SuccessfulMigrations and TotalMigrations are the number of jobs that
    completed, FailedMigrations is the number of jobs that failed, and
    the two add up to the number of jobs that ended. *)
Theorem X13_counters_count_jobs {W : Type} (E : Env W)
    (ts : list (Terminal W)) :
  Z.of_nat (length ts) <= Int64.max_int ->
  let m := replay E ts zeroMetrics in
  SuccessfulMigrations m = Z.of_nat (length (List.filter is_completed ts)) /\
  TotalMigrations m = Z.of_nat (length (List.filter is_completed ts)) /\
  FailedMigrations m = Z.of_nat (length (List.filter is_failed ts)) /\
  SuccessfulMigrations m + FailedMigrations m = Z.of_nat (length ts).
Proof.
  intros Hb. cbv zeta.
  destruct (replay_counts E ts zeroMetrics) as [Hs Hf];
    try (cbn; lia).
  pose proof (replay_total_successful E ts zeroMetrics eq_refl) as Ht.
  pose proof (filter_lengths ts) as Hl.
  cbn [zeroMetrics SuccessfulMigrations FailedMigrations] in Hs, Hf.
  rewrite Ht, Hs, Hf. repeat split; lia.
Qed.

(** X13, on the simulated cluster: one job fails, then one completes. *)
Lemma X13_counters_count_jobs_witness :
  let ts := [TFailed "Failed to create optimized pod" Sim.healthy
               (Sim.pending (Sim.request false 0));
             TCompleted Sim.healthy (Sim.pending (Sim.request true 0))] in
  Z.of_nat (length ts) <= Int64.max_int /\
  let m := replay Sim.env ts zeroMetrics in
  SuccessfulMigrations m = Z.of_nat (length (List.filter is_completed ts)) /\
  TotalMigrations m = Z.of_nat (length (List.filter is_completed ts)) /\
  FailedMigrations m = Z.of_nat (length (List.filter is_failed ts)) /\
  SuccessfulMigrations m + FailedMigrations m = Z.of_nat (length ts).
Proof.
  intros ts.
  assert (Hb : Z.of_nat (length ts) <= Int64.max_int)
    by (vm_compute; discriminate).
  split; [exact Hb|].
  exact (X13_counters_count_jobs Sim.env ts Hb).
Defined.

(** X14.  The running average stays between its old value and the new
    duration.  For a positive number of completed jobs, a non-negative old
    average and duration, and a sum that fits in int64, the updated
    average is at least the smaller and at most the larger of the old
    average and the new duration; in particular an average that equals
    the new duration is left as it is. *)
Theorem X14_average_between (avg total d : Z) :
  1 <= total <= Int64.max_int ->
  0 <= avg ->
  0 <= d ->
  avg * (total - 1) + d <= Int64.max_int ->
  Z.min avg d <= updateAverage avg total d <= Z.max avg d /\
  (avg = d -> updateAverage avg total d = d).
Proof.
  intros Ht Ha Hd Hfit.
  assert (Hq : Z.min avg d <= (avg * (total - 1) + d) / total <= Z.max avg d).
  { split.
    - apply Z.div_le_lower_bound; [lia|]. nia.
    - apply Z.div_le_upper_bound; [lia|]. nia. }
  assert (Hu : updateAverage avg total d = (avg * (total - 1) + d) / total).
  { unfold updateAverage, Int64.div, Int64.add, Int64.mul, Int64.sub.
    destruct (Z.ltb_spec 0 total); [|lia].
    assert (Hm : 0 <= avg * (total - 1)) by nia.
    rewrite (Int64_wrap_small (total - 1))
      by (unfold Int64.in_range, Int64.min_int, Int64.max_int in *; lia).
    rewrite (Int64_wrap_small (avg * (total - 1)))
      by (unfold Int64.in_range, Int64.min_int, Int64.max_int in *; lia).
    rewrite (Int64_wrap_small (avg * (total - 1) + d))
      by (unfold Int64.in_range, Int64.min_int, Int64.max_int in *; lia).
    rewrite Z.quot_div_nonneg by lia.
    apply Int64_wrap_small.
    assert (Hq0 : 0 <= (avg * (total - 1) + d) / total)
      by (apply Z.div_pos; lia).
    assert (Hq1 : (avg * (total - 1) + d) / total <= avg * (total - 1) + d)
      by (apply Z.div_le_upper_bound; [lia|nia]).
    unfold Int64.in_range, Int64.min_int, Int64.max_int in *. lia. }
  rewrite Hu. split; [exact Hq|]. intros ->. lia.
Qed.

(** X14, for an average of 10 over two jobs and a third job of 40. *)
Lemma X14_average_between_witness :
  (1 <= 3 <= Int64.max_int) /\ 0 <= 10 /\ 0 <= 40 /\
  10 * (3 - 1) + 40 <= Int64.max_int /\
  Z.min 10 40 <= updateAverage 10 3 40 <= Z.max 10 40 /\
  (10 = 40 -> updateAverage 10 3 40 = 40).
Proof.
  assert (H1 : 1 <= 3 <= Int64.max_int) by (vm_compute; split; discriminate).
  assert (H2 : 0 <= 10) by discriminate.
  assert (H3 : 0 <= 40) by discriminate.
  assert (H4 : 10 * (3 - 1) + 40 <= Int64.max_int) by (vm_compute; discriminate).
  split; [exact H1|]. split; [exact H2|]. split; [exact H3|].
  split; [exact H4|].
  exact (X14_average_between 10 3 40 H1 H2 H3 H4).
Defined.

(** X15.  The first job that completes sets the running average to its
    own duration: when TotalMigrations is 0 before the run, a run that
    ends [completed] leaves AverageDuration equal to the duration written
    in the job's details, whatever the average was. *)
Theorem X15_first_average_is_duration {W : Type} (E : Env W)
    (w : W) (j : MigrationJob) (m : MigrationMetrics) (size : string) :
  TotalMigrations m = 0 ->
  let st' := runPipeline E w j m size in
  Status (job st') = MigrationStatusCompleted ->
  Duration (Details (job st')) = Some (AverageDuration (mc_metrics st')).
Proof.
  intros Ht. cbv zeta. intros Hs.
  destruct (runPipeline_run E any_world (any_world_kept E) w j m size)
    as (log & s & t & _ & _ & Hst & _ & Hd & _ & _ & _ & Hc & _).
  rewrite Hs in Hst. subst s. unfold counted in Hc.
  destruct Hc as (_ & _ & _ & Ha).
  rewrite Hd, Ha, Ht. f_equal.
  pose proof (time_Sub_in_range t (JobStartTime j)) as Hr.
  unfold updateAverage, Int64.incr, Int64.add, Int64.mul, Int64.sub, Int64.div.
  change (Int64.wrap (0 + 1)) with 1. cbn [Z.ltb Z.compare].
  change (Int64.wrap (1 - 1)) with 0.
  rewrite Z.mul_0_r. change (Int64.wrap 0) with 0. rewrite Z.add_0_l.
  rewrite (Int64_wrap_small _ Hr), Z.quot_1_r, (Int64_wrap_small _ Hr).
  reflexivity.
Qed.

(** X15, on the simulated cluster: the healthy run on a fresh
    controller. *)
Lemma X15_first_average_is_duration_witness :
  let st' := runPipeline Sim.env Sim.healthy
               (Sim.pending (Sim.request true 0)) zeroMetrics "1Gi" in
  TotalMigrations zeroMetrics = 0 /\
  Status (job st') = MigrationStatusCompleted /\
  Duration (Details (job st')) = Some (AverageDuration (mc_metrics st')).
Proof.
  intros st'.
  assert (Ht : TotalMigrations zeroMetrics = 0) by reflexivity.
  assert (Hs : Status (job st') = MigrationStatusCompleted)
    by (vm_compute; reflexivity).
  split; [exact Ht|]. split; [exact Hs|].
  exact (X15_first_average_is_duration Sim.env Sim.healthy
           (Sim.pending (Sim.request true 0)) zeroMetrics "1Gi" Ht Hs).
Defined.

(** X16.  The message tells the status: two statuses with the same
    message are the same status. *)
Theorem X16_status_message_injective (a b : MigrationStatus) :
  getStatusMessage a = getStatusMessage b -> a = b.
Proof.
  destruct a, b; cbn; intros H; try reflexivity; discriminate H.
Qed.

(** X16, for the status [failed]. *)
Lemma X16_status_message_injective_witness :
  getStatusMessage MigrationStatusFailed =
    getStatusMessage MigrationStatusFailed /\
  MigrationStatusFailed = MigrationStatusFailed.
Proof.
  assert (H : getStatusMessage MigrationStatusFailed =
              getStatusMessage MigrationStatusFailed) by reflexivity.
  split; [exact H|].
  exact (X16_status_message_injective _ _ H).
Defined.



(** ** The settle delay *)

Section Settle.

Context {W : Type} (E : Env W) (clk : W -> time_Time).
Hypothesis HM : MonotoneClock E clk.
Hypothesis HSleep : forall d w, clk w + d <= clk (Sleep E d w).

Lemma collectPostMigrationMetrics_settles (st : St W) :
  clk (world st) + 30000000000 <=
  clk (world (snd (collectPostMigrationMetrics E st))).
Proof using HM HSleep.
  destruct HM as [HK HN]. destruct st as [w j m size tr].
  pose proof (HSleep 30000000000 w) as H0.
  cbv [collectPostMigrationMetrics simulate bind liftW getJob ret
       modifyDetails modifyJob now
       world job mc_metrics mc_checkpointSize trace snd].
  change (30 * time_Second) with 30000000000.
  destruct (negb (String.eqb (NewPodName (Details j)) ""));
    [ match goal with
      | |- context [GetPodMetrics E ?a ?b ?c ?d] =>
          pose proof (env_GetPodMetrics _ _ HK a b c d) as H1;
          destruct (GetPodMetrics E a b c d) as [[?|?] ?]
      end | ];
    try destruct (OriginalResources (Details j));
    cbv beta iota zeta
        delta [world job mc_metrics mc_checkpointSize trace snd fst];
    try match goal with
        | |- context [Now E ?x] =>
            pose proof (env_Now _ _ HK x) as H2;
            destruct (Now E x)
        end;
    unfold clock_order in *; cbn in *; lia.
Qed.

Ltac red_clock :=
  cbv beta iota zeta
      delta [world job mc_metrics mc_checkpointSize trace snd fst].

(** Run the next step [f], keeping what [lemS] says of the clock. *)
Ltac clock_step f lemS e :=
  match goal with
  | |- context [f ?s] =>
      let PS := fresh "PS" in
      pose proof (lemS s) as PS;
      destruct (f s) as [e [? ? ? ? ?]];
      cbv beta iota zeta
          delta [step_rel clock_order world job mc_metrics
                 mc_checkpointSize trace snd fst] in PS;
      destruct PS as (? & _)
  end.

Ltac clock_failed :=
  match goal with
  | |- context [failMigration E ?msg ?s] =>
      let F := fresh "F" in
      pose proof (failMigration_spec E msg s) as F;
      destruct (failMigration E msg s) as [[] [? ? ? ? ?]];
      cbv beta iota zeta
          delta [world job mc_metrics mc_checkpointSize trace snd] in F;
      destruct F as (_ & ? & _); subst;
      cbn [Status set_Details set_Status job]; intros; discriminate
  end.

Ltac clock_tail HK HN pvc :=
  let e3 := fresh "e3" in
  let e4 := fresh "e4" in
  let e5 := fresh "e5" in
  clock_step (createOptimizedPod E pvc)
    (createOptimizedPod_step E _ HK pvc) e3;
  destruct e3 as [?err|]; red_clock; [clock_failed|];
  clock_step (deleteOriginalPod E) (deleteOriginalPod_step E _ HK) e4;
  red_clock;
  match goal with
  | |- context [collectPostMigrationMetrics E ?s] =>
      let P5 := fresh "P5" in
      pose proof (collectPostMigrationMetrics_settles s) as P5;
      destruct (collectPostMigrationMetrics E s) as [e5 [? ? ? ? ?]];
      cbv beta iota zeta
          delta [world job mc_metrics mc_checkpointSize trace snd fst] in P5
  end;
  red_clock;
  match goal with
  | |- context [completeMigration E ?s] =>
      let F := fresh "F" in
      pose proof (completeMigration_spec E s) as F;
      destruct (completeMigration E s) as [[] [? ? ? ? ?]];
      cbv beta iota zeta
          delta [world job mc_metrics mc_checkpointSize trace snd] in F;
      destruct F as (_ & ? & _); subst
  end;
  cbn [Status Details EndTime set_Details set_Status set_EndTime
       set_Duration job];
  intros _; eexists; split; [reflexivity|];
  match goal with
  | |- context [Now E ?x] => pose proof (HN x)
  end;
  lia.

Lemma runPipeline_settles (w : W) (j : MigrationJob) (m : MigrationMetrics)
    (size : string) :
  let st' := runPipeline E w j m size in
  Status (job st') = MigrationStatusCompleted ->
  exists t,
    EndTime (Details (job st')) = Some t /\
    clk w + 30000000000 <= t.
Proof using HM HSleep.
  pose proof collectPostMigrationMetrics_settles as Hsettle.
  destruct HM as [HK HN].
  unfold runPipeline.
  cbv [executeMigration bind updateJobStatus emit modifyJob modifyDetails
       getJob ret world job mc_metrics mc_checkpointSize trace snd].
  clock_step (captureContainerStates E)
    (captureContainerStates_step E _ HK) e1.
  destruct e1 as [err|]; red_clock; [clock_failed|].
  match goal with
  | |- context [PreservePV ?r] => destruct (PreservePV r)
  end; red_clock.
  - clock_step (createCheckpoint E) (createCheckpoint_step E _ HK) r2.
    destruct r2 as [pvc|err]; red_clock; [|clock_failed].
    clock_tail HK HN pvc.
  - clock_tail HK HN EmptyString.
Qed.

End Settle.

(** X18.  A migration that completes takes at least the settle delay.
    With a clock that does not run backwards and a [Sleep] that lasts at
    least as long as asked, a run that ends [completed] ends thirty
    seconds or more after it began, and, for a job that started before
    its run, with a duration of thirty seconds or more. *)
Theorem X18_completed_run_outlasts_settle_delay {W : Type} (E : Env W)
    (clk : W -> time_Time) (HM : MonotoneClock E clk)
    (HSleep : forall d w, clk w + d <= clk (Sleep E d w))
    (w : W) (j : MigrationJob) (m : MigrationMetrics) (size : string) :
  JobStartTime j <= clk w ->
  let st' := runPipeline E w j m size in
  Status (job st') = MigrationStatusCompleted ->
  exists t d,
    EndTime (Details (job st')) = Some t /\
    Duration (Details (job st')) = Some d /\
    clk w + 30000000000 <= t /\
    30000000000 <= d.
Proof.
  intros Hstart. cbv zeta. intros Hs.
  destruct (runPipeline_settles E clk HM HSleep w j m size Hs)
    as (t & Ht & Hle).
  destruct (runPipeline_run E any_world (any_world_kept E) w j m size)
    as (log & s & t' & _ & _ & _ & Ht' & Hd & _).
  rewrite Ht in Ht'. injection Ht' as <-.
  exists t, (time_Sub t (JobStartTime j)).
  split; [exact Ht|]. split; [exact Hd|]. split; [exact Hle|].
  unfold time_Sub, maxDuration, minDuration.
  destruct (Z.ltb_spec Int64.max_int (t - JobStartTime j)).
  - unfold Int64.max_int. lia.
  - destruct (Z.ltb_spec (t - JobStartTime j) Int64.min_int).
    + unfold Int64.min_int in *. lia.
    + lia.
Qed.

(** X18, on the simulated cluster: the healthy run, begun at time 0, ends
    after 30.009 seconds. *)
Lemma X18_completed_run_outlasts_settle_delay_witness :
  let st' := runPipeline Sim.env Sim.healthy
               (Sim.pending (Sim.request true 0)) zeroMetrics "1Gi" in
  MonotoneClock Sim.env Sim.clock /\
  (forall d w, Sim.clock w + d <= Sim.clock (Sleep Sim.env d w)) /\
  JobStartTime (Sim.pending (Sim.request true 0)) <= Sim.clock Sim.healthy /\
  Status (job st') = MigrationStatusCompleted /\
  exists t d,
    EndTime (Details (job st')) = Some t /\
    Duration (Details (job st')) = Some d /\
    Sim.clock Sim.healthy + 30000000000 <= t /\
    30000000000 <= d.
Proof.
  intros st'.
  assert (HSl : forall d w, Sim.clock w + d <= Sim.clock (Sleep Sim.env d w))
    by (intros d w; cbn; lia).
  assert (Hst : JobStartTime (Sim.pending (Sim.request true 0))
                <= Sim.clock Sim.healthy) by (vm_compute; discriminate).
  assert (Hs : Status (job st') = MigrationStatusCompleted)
    by (vm_compute; reflexivity).
  split; [exact Sim_clock_monotone|]. split; [exact HSl|].
  split; [exact Hst|]. split; [exact Hs|].
  exact (X18_completed_run_outlasts_settle_delay Sim.env Sim.clock
           Sim_clock_monotone HSl Sim.healthy
           (Sim.pending (Sim.request true 0)) zeroMetrics "1Gi" Hst Hs).
Defined.
